(** * Semtech SX1301 LoRa concentrator driver: paged register access,
      bring-up sequence and the two virtual radio SPI controllers.

    Shallow embedding of [drivers/net/lora/sx1301.c].  The driver talks to
    the chip through two primitives of the Linux SPI core,
    [spi_write_then_read] and [spi_write]; both are outside the driver, so
    the SPI device is a parameter: a function from the history of I/O so
    far and the bytes sent to the status (and byte) that come back.  Every
    call to a primitive appends one event to the I/O history, which is how
    the theorems below speak about "bus I/O".

    Integers are [Z]; C's [u8] conversions are written out with [u8].
    Kernel-log calls ([dev_dbg], [dev_warn], [dev_err], [dev_info]) have no
    effect on the device or on the driver's state and are left out. *)

From stdpp Require Import base list.
From Stdlib Require Import ZArith Lia.
Import ListNotations.
Local Open Scope Z_scope.

(** ** Machine integers and constants *)

Definition u8 (z : Z) : Z := z mod 256.

(** [BIT(n)] of [linux/bits.h]. *)
Definition BIT (n : Z) : Z := Z.shiftl 1 n.

Definition REG_PAGE_RESET : Z := 0.
Definition REG_VERSION : Z := 1.
Definition REG_2_SPI_RADIO_A_DATA : Z := 33.
Definition REG_2_SPI_RADIO_A_DATA_READBACK : Z := 34.
Definition REG_2_SPI_RADIO_A_ADDR : Z := 35.
Definition REG_2_SPI_RADIO_A_CS : Z := 37.
Definition REG_2_SPI_RADIO_B_DATA : Z := 38.
Definition REG_2_SPI_RADIO_B_DATA_READBACK : Z := 39.
Definition REG_2_SPI_RADIO_B_ADDR : Z := 40.
Definition REG_2_SPI_RADIO_B_CS : Z := 42.

Definition REG_PAGE_RESET_SOFT_RESET : Z := BIT 7.
Definition REG_16_GLOBAL_EN : Z := BIT 3.
Definition REG_17_CLK32M_EN : Z := BIT 0.
Definition REG_2_43_RADIO_A_EN : Z := BIT 0.
Definition REG_2_43_RADIO_B_EN : Z := BIT 1.
Definition REG_2_43_RADIO_RST : Z := BIT 2.

Definition REG_RADIO_X_DATA : Z := 0.
Definition REG_RADIO_X_DATA_READBACK : Z := 1.
Definition REG_RADIO_X_ADDR : Z := 2.
Definition REG_RADIO_X_CS : Z := 4.

(** Error numbers, with the values of
    [include/uapi/asm-generic/errno-base.h]; the statements below use only
    that they are not 0. *)
Definition ENXIO : Z := 6.
Definition ENOMEM : Z := 12.
Definition EINVAL : Z := 22.

(** C's [if (ret)]. *)
Definition nonzero (ret : Z) : bool := negb (ret =? 0).

(** ** Data model *)

(** What the driver does to the outside world, in the order it does it. *)
Inductive io_event : Type :=
| SpiWriteThenRead (addr status val : Z)
    (* spi_write_then_read(spi, &addr, 1, val, 1): command byte sent,
       status returned, byte received *)
| SpiWrite (b0 b1 status : Z)
    (* spi_write(spi, buf, 2): the two bytes sent, status returned *)
| SpiSetup (bits_per_word : Z)
| GpioSet (value : Z)
| Msleep (ms : Z).

(** The SPI device behind the driver.  The answer to a transfer may depend
    on everything that happened before it. *)
Record spi_device : Type := {
  read_resp : list io_event -> Z -> Z * Z;
  write_resp : list io_event -> Z -> Z -> Z
}.

(** [struct spi_sx1301]: one virtual controller's register block.  The
    [parent] device is the one SPI device of the development. *)
Record spi_sx1301 : Type := {
  page : Z;
  regs : Z
}.

(** [struct spi_transfer], the fields the driver uses. *)
Record spi_transfer : Type := {
  tx_buf : option (list Z);
  rx_buf : option (list Z);
  len : Z
}.

(** The memory the driver works on, together with the I/O history.

    [cur_page] is the byte [sx1301_page_switch] reads and writes as
    [priv->cur_page], where its [priv] is whatever [spi_get_drvdata]
    returns, cast to [struct sx1301_priv *].  The probe gives
    [spi_set_drvdata] the [net_device] and not its private data, so after
    a probe this byte lies in the [net_device].

    [priv_cur_page] and [controllers] are fields of
    [netdev_priv(netdev)], the [struct sx1301_priv] the probe fills in:
    its [cur_page] and the two radio controllers it registers. *)
Record sx1301_state : Type := {
  cur_page : Z;
  priv_cur_page : Z;
  controllers : list spi_sx1301;
  io : list io_event
}.

Definition with_cur_page (p : Z) (s : sx1301_state) : sx1301_state :=
  {| cur_page := p; priv_cur_page := priv_cur_page s;
     controllers := controllers s; io := io s |}.

Definition with_priv_cur_page (p : Z) (s : sx1301_state) : sx1301_state :=
  {| cur_page := cur_page s; priv_cur_page := p;
     controllers := controllers s; io := io s |}.

Definition with_controllers (cs : list spi_sx1301) (s : sx1301_state)
  : sx1301_state :=
  {| cur_page := cur_page s; priv_cur_page := priv_cur_page s;
     controllers := cs; io := io s |}.

Definition emit (e : io_event) (s : sx1301_state) : sx1301_state :=
  {| cur_page := cur_page s; priv_cur_page := priv_cur_page s;
     controllers := controllers s; io := io s ++ [e] |}.

(** What the platform answers at probe time: the optional reset GPIO
    ([inl e] for an error pointer that encodes errno [e], [inr false] when
    there is no such GPIO), the allocations and the controller
    registrations.  [netdev_page_byte] is the content of the byte of the
    [net_device] returned by [alloc_loradev] that lies where [cur_page]
    lies in a [struct sx1301_priv]; the driver never stores to it before
    [sx1301_page_switch] first reads it. *)
Record platform : Type := {
  reset_gpio : positive + bool;
  alloc_loradev : bool;
  netdev_page_byte : Z;
  alloc_radio_a : bool;
  register_radio_a : Z;
  alloc_radio_b : bool;
  register_radio_b : Z
}.

(** ** State monad *)

Definition M (A : Type) : Type := sx1301_state -> A * sx1301_state.

Definition pure {A} (a : A) : M A := fun s => (a, s).

Definition bind {A B} (m : M A) (k : A -> M B) : M B :=
  fun s => let (a, s') := m s in k a s'.

Notation "x <- m ;; k" := (bind m (fun x => k))
  (at level 100, m at next level, right associativity).
Notation "'let*' p := m 'in' k" := (bind m (fun p => k))
  (at level 100, p pattern, m at next level, right associativity).
Notation "m ;; k" := (bind m (fun _ => k))
  (at level 100, right associativity).

Definition get_cur_page : M Z := fun s => (cur_page s, s).
Definition set_cur_page (p : Z) : M unit := fun s => (tt, with_cur_page p s).
Definition set_priv_cur_page (p : Z) : M unit :=
  fun s => (tt, with_priv_cur_page p s).
Definition set_controllers (cs : list spi_sx1301) : M unit :=
  fun s => (tt, with_controllers cs s).

Definition run {A} (m : M A) (s : sx1301_state) : A * sx1301_state := m s.

(** The events a computation adds to a history that starts with [old]. *)
Definition new_io (old : sx1301_state) (new : sx1301_state) : list io_event :=
  drop (length (io old)) (io new).

Section Driver.

Variable spi : spi_device.

(** ** Primitives of the SPI core, GPIO and timers *)

(** One command byte out, one byte in.  [val] is what the caller's
    variable held before; it is overwritten only when the transfer
    succeeds. *)
Definition spi_write_then_read (addr : Z) (val : Z) : M (Z * Z) := fun s =>
  let '(status, rx) := read_resp spi (io s) addr in
  ((status, if status =? 0 then u8 rx else val),
   emit (SpiWriteThenRead addr status (u8 rx)) s).

Definition spi_write (b0 b1 : Z) : M Z := fun s =>
  let status := write_resp spi (io s) b0 b1 in
  (status, emit (SpiWrite b0 b1 status) s).

Definition spi_setup (bits_per_word : Z) : M unit :=
  fun s => (tt, emit (SpiSetup bits_per_word) s).

(** A NULL descriptor (no reset GPIO) makes the call a no-op. *)
Definition gpiod_set_value_cansleep (rst : bool) (value : Z) : M unit :=
  fun s => (tt, if rst then emit (GpioSet value) s else s).

Definition msleep (ms : Z) : M unit := fun s => (tt, emit (Msleep ms) s).

(** ** Register channel *)

Definition sx1301_read (reg : Z) (val : Z) : M (Z * Z) :=
  let addr := Z.land reg 0x7f in
  spi_write_then_read addr val.

Definition sx1301_write (reg val : Z) : M Z :=
  let buf0 := u8 (Z.lor reg (BIT 7)) in
  let buf1 := val in
  spi_write buf0 buf1.

(** ** Paged register store *)

Definition sx1301_page_switch (page : Z) : M Z :=
  cur <- get_cur_page ;;
  if cur =? page then pure 0 else
  ret <- sx1301_write REG_PAGE_RESET (Z.land page 0x3) ;;
  if nonzero ret then pure ret else
  set_cur_page page ;;
  pure 0.

Definition sx1301_soft_reset : M Z :=
  sx1301_write REG_PAGE_RESET REG_PAGE_RESET_SOFT_RESET.

(** ** Virtual radio SPI controller *)

Definition sx1301_radio_set_cs (ssx : spi_sx1301) (enable : bool) : M Z :=
  ret <- sx1301_page_switch (page ssx) ;;
  if nonzero ret then pure ret else
  let* (ret, cs) := sx1301_read (u8 (regs ssx + REG_RADIO_X_CS)) 0 in
  let cs := if nonzero ret then 0 else cs in
  let cs := if enable then u8 (Z.lor cs (BIT 0))
            else u8 (Z.land cs (Z.lnot (BIT 0))) in
  ret <- sx1301_write (u8 (regs ssx + REG_RADIO_X_CS)) cs ;;
  pure 0.

Definition sx1301_radio_spi_set_cs (ssx : spi_sx1301) (enable : bool)
  : M unit :=
  if enable then pure tt else
  ret <- sx1301_radio_set_cs ssx enable ;;
  pure tt.

(** [buf[i]] for a buffer that holds at least [i + 1] bytes. *)
Definition byte_at (buf : list Z) (i : Z) : Z :=
  default 0 (buf !! Z.to_nat i).

(** [buf[i] = v]. *)
Definition store_at (buf : list Z) (i : Z) (v : Z) : list Z :=
  <[Z.to_nat i := v]> buf.

Definition sx1301_radio_spi_transfer_one (ssx : spi_sx1301)
    (xfr : spi_transfer) : M (Z * spi_transfer) :=
  if (len xfr =? 0) || (len xfr >? 3) then pure (- EINVAL, xfr) else
  ret <- sx1301_page_switch (page ssx) ;;
  if nonzero ret then pure (ret, xfr) else
  let rx_phase : M (Z * spi_transfer) :=
    match rx_buf xfr with
    | Some rx =>
        let* (ret, v) :=
          sx1301_read (u8 (regs ssx + REG_RADIO_X_DATA_READBACK))
                      (byte_at rx (len xfr - 1)) in
        let xfr' := {| tx_buf := tx_buf xfr;
                       rx_buf := Some (store_at rx (len xfr - 1) v);
                       len := len xfr |} in
        if nonzero ret then pure (ret, xfr') else pure (0, xfr')
    | None => pure (0, xfr)
    end in
  match tx_buf xfr with
  | Some tx =>
      ret <- sx1301_write (u8 (regs ssx + REG_RADIO_X_ADDR)) (byte_at tx 0) ;;
      if nonzero ret then pure (ret, xfr) else
      ret <- sx1301_write (u8 (regs ssx + REG_RADIO_X_DATA))
                          (if len xfr >=? 2 then byte_at tx 1 else 0) ;;
      if nonzero ret then pure (ret, xfr) else
      ret <- sx1301_radio_set_cs ssx true ;;
      if nonzero ret then pure (ret, xfr) else
      ret <- sx1301_radio_set_cs ssx false ;;
      if nonzero ret then pure (ret, xfr) else
      rx_phase
  | None => rx_phase
  end.

(** ** Bring-up *)

(** The register blocks the probe gives the two controllers. *)
Definition radio_a : spi_sx1301 :=
  {| page := 2; regs := REG_2_SPI_RADIO_A_DATA |}.
Definition radio_b : spi_sx1301 :=
  {| page := 2; regs := REG_2_SPI_RADIO_B_DATA |}.

(** [spi_set_drvdata(spi, netdev)]: from here on [spi_get_drvdata] gives
    the [net_device], and the [cur_page] of [sx1301_page_switch] is the
    byte of that object, whatever it holds. *)
Definition spi_set_drvdata (netdev_byte : Z) : M unit :=
  fun s => (tt, with_cur_page (u8 netdev_byte) s).

Definition sx1301_probe (pf : platform) : M Z :=
  match reset_gpio pf with
  | inl e => pure (Z.neg e)
  | inr rst =>
      gpiod_set_value_cansleep rst 1 ;;
      msleep 100 ;;
      gpiod_set_value_cansleep rst 0 ;;
      msleep 100 ;;
      spi_setup 8 ;;
      let* (ret, val) := sx1301_read REG_VERSION 0 in
      if nonzero ret then pure ret else
      if negb (val =? 103) then pure (- ENXIO) else
      if negb (alloc_loradev pf) then pure (- ENOMEM) else
      (* priv = netdev_priv(netdev) *)
      set_priv_cur_page 0xff ;;
      spi_set_drvdata (netdev_page_byte pf) ;;
      ret <- sx1301_write REG_PAGE_RESET 0 ;;
      if nonzero ret then pure ret else
      ret <- sx1301_soft_reset ;;
      if nonzero ret then pure ret else
      let* (ret, val) := sx1301_read 16 val in
      if nonzero ret then pure ret else
      let val := u8 (Z.land val (Z.lnot REG_16_GLOBAL_EN)) in
      ret <- sx1301_write 16 val ;;
      if nonzero ret then pure ret else
      let* (ret, val) := sx1301_read 17 val in
      if nonzero ret then pure ret else
      let val := u8 (Z.land val (Z.lnot REG_17_CLK32M_EN)) in
      ret <- sx1301_write 17 val ;;
      if nonzero ret then pure ret else
      ret <- sx1301_page_switch 2 ;;
      if nonzero ret then pure ret else
      let* (ret, val) := sx1301_read 43 val in
      if nonzero ret then pure ret else
      let val := u8 (Z.lor val (Z.lor REG_2_43_RADIO_B_EN REG_2_43_RADIO_A_EN)) in
      ret <- sx1301_write 43 val ;;
      if nonzero ret then pure ret else
      msleep 500 ;;
      let* (ret, val) := sx1301_read 43 val in
      if nonzero ret then pure ret else
      let val := u8 (Z.lor val REG_2_43_RADIO_RST) in
      ret <- sx1301_write 43 val ;;
      if nonzero ret then pure ret else
      msleep 5 ;;
      let* (ret, val) := sx1301_read 43 val in
      if nonzero ret then pure ret else
      let val := u8 (Z.land val (Z.lnot REG_2_43_RADIO_RST)) in
      ret <- sx1301_write 43 val ;;
      if nonzero ret then pure ret else
      (* radio A *)
      if negb (alloc_radio_a pf) then pure (- ENOMEM) else
      if nonzero (register_radio_a pf) then pure (register_radio_a pf) else
      set_controllers [radio_a] ;;
      (* radio B *)
      if negb (alloc_radio_b pf) then
        set_controllers [] ;; pure (- ENOMEM)
      else
      if nonzero (register_radio_b pf) then
        set_controllers [] ;; pure (register_radio_b pf)
      else
      set_controllers [radio_a; radio_b] ;;
      pure 0
  end.

(** A run of [switch_page] calls, one after the other; the statuses are
    returned in call order. *)
Fixpoint page_switch_seq (pages : list Z) : M (list Z) :=
  match pages with
  | [] => pure []
  | p :: rest =>
      ret <- sx1301_page_switch p ;;
      rets <- page_switch_seq rest ;;
      pure (ret :: rets)
  end.

End Driver.

(** ** Test devices *)

(** A chip that answers every read with [v] and accepts every write. *)
Definition const_device (v : Z) : spi_device :=
  {| read_resp := fun _ _ => (0, v); write_resp := fun _ _ _ => 0 |}.

(** A bus on which every write whose first byte is [b0] fails with
    [err]; reads answer [v]. *)
Definition write_fails_device (b0 err v : Z) : spi_device :=
  {| read_resp := fun _ _ => (0, v);
     write_resp := fun _ w0 _ => if w0 =? b0 then err else 0 |}.

(** A bus on which every read of [addr] fails with [err]. *)
Definition read_fails_device (addr err : Z) : spi_device :=
  {| read_resp := fun _ a => if a =? addr then (err, 0) else (0, 0);
     write_resp := fun _ _ _ => 0 |}.

(** A register file behind the bus: a read of [addr] answers the last
    byte written to it ([init] when none); the version register is
    read-only. *)
Fixpoint last_written (addr : Z) (h : list io_event) (acc : Z) : Z :=
  match h with
  | [] => acc
  | SpiWrite b0 b1 0 :: h' =>
      last_written addr h' (if b0 =? Z.lor addr 0x80 then b1 else acc)
  | _ :: h' => last_written addr h' acc
  end.

Definition regfile_device (version init : Z) : spi_device :=
  {| read_resp := fun h a =>
       (0, if a =? REG_VERSION then version else last_written a h init);
     write_resp := fun _ _ _ => 0 |}.

Definition EIO : Z := 5.


(** A board on which everything succeeds; [b] is what the byte of the
    [net_device] read as the page cache holds. *)
Definition board_with_page_byte (b : Z) : platform :=
  {| reset_gpio := inr true; alloc_loradev := true;
     netdev_page_byte := b;
     alloc_radio_a := true; register_radio_a := 0;
     alloc_radio_b := true; register_radio_b := 0 |}.

(** The same with a zeroed [net_device]. *)
Definition board : platform := board_with_page_byte 0.

Definition init_state : sx1301_state :=
  {| cur_page := 0; priv_cur_page := 0; controllers := []; io := [] |}.

(** The page a caller may take as selected after a run of [switch_page]
    calls, read off the calls' statuses alone: the target of the latest
    call that returned success, or the starting value when none did. *)
Fixpoint last_confirmed_page (start : Z) (pages rets : list Z) : Z :=
  match pages, rets with
  | p :: pages', r :: rets' =>
      last_confirmed_page (if r =? 0 then p else start) pages' rets'
  | _, _ => start
  end.

(** ** Vocabulary of the statements *)

(** Command byte of a read of the block's chip-select register, and first
    byte of a write to it. *)
Definition cs_read_cmd (ssx : spi_sx1301) : Z :=
  Z.land (u8 (regs ssx + REG_RADIO_X_CS)) 0x7f.
Definition cs_write_cmd (ssx : spi_sx1301) : Z :=
  u8 (Z.lor (u8 (regs ssx + REG_RADIO_X_CS)) (BIT 7)).

(** The byte [sx1301_radio_set_cs] writes back, from what the read gave. *)
Definition cs_value (enable : bool) (st rx : Z) : Z :=
  let cs := if nonzero st then 0 else if st =? 0 then u8 rx else 0 in
  if enable then u8 (Z.lor cs (BIT 0)) else u8 (Z.land cs (Z.lnot (BIT 0))).

(** Command byte of a read of the block's data-readback register. *)
Definition rb_read_cmd (ssx : spi_sx1301) : Z :=
  Z.land (u8 (regs ssx + REG_RADIO_X_DATA_READBACK)) 0x7f.

(** First bytes of the writes to the block's address and data registers. *)
Definition addr_write_cmd (ssx : spi_sx1301) : Z :=
  u8 (Z.lor (u8 (regs ssx + REG_RADIO_X_ADDR)) (BIT 7)).
Definition data_write_cmd (ssx : spi_sx1301) : Z :=
  u8 (Z.lor (u8 (regs ssx + REG_RADIO_X_DATA)) (BIT 7)).

Definition is_read_of (cmd : Z) (e : io_event) : bool :=
  match e with
  | SpiWriteThenRead a _ _ => a =? cmd
  | _ => false
  end.

(** How many reads with command byte [cmd] a history holds. *)
Fixpoint count_reads (cmd : Z) (evs : list io_event) : nat :=
  match evs with
  | [] => 0%nat
  | e :: evs' =>
      ((if is_read_of cmd e then 1 else 0) + count_reads cmd evs')%nat
  end.

(** A write to the block's chip-select register with bit 0 set (assert)
    or clear (deassert). *)
Definition is_cs_assert (ssx : spi_sx1301) (e : io_event) : bool :=
  match e with
  | SpiWrite b0 v _ => (b0 =? cs_write_cmd ssx) && Z.testbit v 0
  | _ => false
  end.

Definition is_cs_deassert (ssx : spi_sx1301) (e : io_event) : bool :=
  match e with
  | SpiWrite b0 v _ => (b0 =? cs_write_cmd ssx) && negb (Z.testbit v 0)
  | _ => false
  end.

Definition no_cs_assert (ssx : spi_sx1301) (evs : list io_event) : bool :=
  forallb (fun e => negb (is_cs_assert ssx e)) evs.

(** Every assert in the history is followed at once by the read and the
    deasserting write of the chip-select register. *)
Fixpoint cs_asserts_released (ssx : spi_sx1301) (evs : list io_event) : bool :=
  match evs with
  | [] => true
  | e :: rest =>
      (if is_cs_assert ssx e then
         match rest with
         | r :: w :: _ => is_read_of (cs_read_cmd ssx) r && is_cs_deassert ssx w
         | _ => false
         end
       else true)
      && cs_asserts_released ssx rest
  end.

(** The reset pulse of bring-up step 1, with or without a reset GPIO. *)
Definition reset_pulse (rst : bool) : list io_event :=
  (if rst then [GpioSet 1] else []) ++ [Msleep 100]
  ++ (if rst then [GpioSet 0] else []) ++ [Msleep 100].

Definition has_reset_gpio (pf : platform) : bool :=
  match reset_gpio pf with
  | inr rst => rst
  | inl _ => false
  end.

(** The bytes the chip returned to the six reads of a bring-up. *)
Record bringup_reads : Type := {
  rd_version : Z;
  rd_16 : Z;
  rd_17 : Z;
  rd_43_enable : Z;
  rd_43_reset : Z;
  rd_43_release : Z
}.

(** The bytes a bring-up writes back in its five read-modify-write
    steps, from what it read. *)
Definition wr_16 (rd : bringup_reads) : Z :=
  u8 (Z.land (u8 (rd_16 rd)) (Z.lnot REG_16_GLOBAL_EN)).
Definition wr_17 (rd : bringup_reads) : Z :=
  u8 (Z.land (u8 (rd_17 rd)) (Z.lnot REG_17_CLK32M_EN)).
Definition wr_43_enable (rd : bringup_reads) : Z :=
  u8 (Z.lor (u8 (rd_43_enable rd))
        (Z.lor REG_2_43_RADIO_B_EN REG_2_43_RADIO_A_EN)).
Definition wr_43_reset (rd : bringup_reads) : Z :=
  u8 (Z.lor (u8 (rd_43_reset rd)) REG_2_43_RADIO_RST).
Definition wr_43_release (rd : bringup_reads) : Z :=
  u8 (Z.land (u8 (rd_43_release rd)) (Z.lnot REG_2_43_RADIO_RST)).

(** Whether the probe's switch to page 2 finds another page cached: the
    byte [sx1301_page_switch] compares with is then the one of the
    [net_device]. *)
Definition page_select_needed (pf : platform) : bool :=
  negb (u8 (netdev_page_byte pf) =? 2).

(** The I/O of a bring-up in which every transfer succeeds; [sel] tells
    whether the switch to page 2 wrote the page-select register. *)
Definition bringup_io (rst sel : bool) (rd : bringup_reads)
  : list io_event :=
  reset_pulse rst ++
  [ SpiSetup 8;
    SpiWriteThenRead 1 0 (u8 (rd_version rd));
    SpiWrite 0x80 0 0;
    SpiWrite 0x80 0x80 0;
    SpiWriteThenRead 16 0 (u8 (rd_16 rd));
    SpiWrite 0x90 (wr_16 rd) 0;
    SpiWriteThenRead 17 0 (u8 (rd_17 rd));
    SpiWrite 0x91 (wr_17 rd) 0 ] ++
  (if sel then [SpiWrite 0x80 2 0] else []) ++
  [ SpiWriteThenRead 43 0 (u8 (rd_43_enable rd));
    SpiWrite 0xAB (wr_43_enable rd) 0;
    Msleep 500;
    SpiWriteThenRead 43 0 (u8 (rd_43_reset rd));
    SpiWrite 0xAB (wr_43_reset rd) 0;
    Msleep 5;
    SpiWriteThenRead 43 0 (u8 (rd_43_release rd));
    SpiWrite 0xAB (wr_43_release rd) 0 ].

(** An event with its status forgotten. *)
Definition strip_status (e : io_event) : io_event :=
  match e with
  | SpiWriteThenRead a _ v => SpiWriteThenRead a 0 v
  | SpiWrite b0 b1 _ => SpiWrite b0 b1 0
  | e' => e'
  end.

(** [w] differs from [v] in bits of [mask] only. *)
Definition only_mask_changed (mask v w : Z) : Prop :=
  forall k, 0 <= k -> Z.testbit mask k = false ->
            Z.testbit w k = Z.testbit v k.

(** What holds of every run of the probe that starts in [s] on a board
    whose reset GPIO is present or not ([rst]) and on which the switch to
    page 2 has to write the page-select register or not ([sel]): the
    history only grows, the I/O of the run, statuses apart, is an initial
    segment of [bringup_io], and all of it when the probe returns 0. *)
Definition probe_io_spec (s : sx1301_state) (rst sel : bool)
    (r : Z * sx1301_state) : Prop :=
  exists rd,
    io (snd r) = io s ++ new_io s (snd r) /\
    map strip_status (new_io s (snd r)) `prefix_of` bringup_io rst sel rd /\
    (fst r = 0 ->
     new_io s (snd r) = bringup_io rst sel rd /\
     u8 (rd_version rd) = 103 /\
     cur_page (snd r) = 2 /\
     controllers (snd r) = [radio_a; radio_b]).

(** What holds of every run of [transfer_one] on a transfer whose
    incoming buffer is [rx]: the history only grows and only the last
    position of the buffer can change.  Either the run stopped with an
    error before the incoming phase, without reading the data-readback
    register and without touching the buffer; or it read that register
    exactly once, as its last step, and returned the status of that read,
    with the byte read in the last position of the buffer when the read
    succeeded and the buffer untouched when it failed. *)
Definition readback_spec (ssx : spi_sx1301) (xfr : spi_transfer)
    (rx : list Z) (s : sx1301_state)
    (r : Z * spi_transfer * sx1301_state) : Prop :=
  let evs := new_io s (snd r) in
  let pos := Z.to_nat (len xfr - 1) in
  exists rx',
    io (snd r) = io s ++ evs /\
    rx_buf (snd (fst r)) = Some rx' /\
    length rx' = length rx /\
    (forall i, i <> pos -> rx' !! i = rx !! i) /\
    ((count_reads (rb_read_cmd ssx) evs = 0%nat /\
      fst (fst r) <> 0 /\ rx' = rx)
     \/
     (count_reads (rb_read_cmd ssx) evs = 1%nat /\
      exists st v,
        last evs = Some (SpiWriteThenRead (rb_read_cmd ssx) st v) /\
        fst (fst r) = st /\
        (st = 0 -> rx' !! pos = Some v) /\
        (st <> 0 -> rx' = rx))).

(** Status a transfer returned; 0 for the events that have none. *)
Definition status_of (e : io_event) : Z :=
  match e with
  | SpiWriteThenRead _ st _ => st
  | SpiWrite _ _ st => st
  | _ => 0
  end.

Definition all_succeeded (evs : list io_event) : bool :=
  forallb (fun e => status_of e =? 0) evs.

(** A read or a write of one of the four registers of a block (data,
    data readback, address, chip select). *)
Definition block_reg (ssx : spi_sx1301) (e : io_event) : bool :=
  match e with
  | SpiWriteThenRead a _ _ => (a =? cs_read_cmd ssx) || (a =? rb_read_cmd ssx)
  | SpiWrite b0 _ _ =>
      (b0 =? addr_write_cmd ssx) || (b0 =? data_write_cmd ssx)
      || (b0 =? cs_write_cmd ssx)
  | _ => false
  end.

Definition radio_reg (e : io_event) : bool :=
  block_reg radio_a e || block_reg radio_b e.

(** The register a transfer is on: the command byte of a read, the low
    seven bits of the first byte of a write. *)
Definition reg_of (e : io_event) : option Z :=
  match e with
  | SpiWriteThenRead a _ _ => Some a
  | SpiWrite b0 _ _ => Some (b0 mod 128)
  | _ => None
  end.

(** A read or a write, of whatever outcome, of a register in the window
    of a block: from its data register to its chip-select register. *)
Definition block_access (ssx : spi_sx1301) (e : io_event) : bool :=
  match reg_of e with
  | Some r =>
      (regs ssx + REG_RADIO_X_DATA <=? r) && (r <=? regs ssx + REG_RADIO_X_CS)
  | None => false
  end.

(** How a call on the controller of block [ssx] that takes [s] to [s']
    deals with the page: the controllers are as before and the history
    only grows; and either the call did no I/O at all, or the block's page
    was cached and stays cached and every transfer is on a register of the
    block, or the page-select write failed and nothing followed it, or the
    page-select write succeeded, the block's page is now cached, and every
    transfer after it is on a register of the block. *)
Definition page_discipline (ssx : spi_sx1301) (s s' : sx1301_state) : Prop :=
  let evs := new_io s s' in
  controllers s' = controllers s /\
  io s' = io s ++ evs /\
  ((evs = [] /\ cur_page s' = cur_page s) \/
   (cur_page s = page ssx /\ cur_page s' = page ssx /\
    forallb (block_reg ssx) evs = true) \/
   (cur_page s <> page ssx /\ cur_page s' = cur_page s /\
    exists st, st <> 0 /\ evs = [SpiWrite 0x80 (Z.land (page ssx) 0x3) st]) \/
   (cur_page s <> page ssx /\ cur_page s' = page ssx /\
    exists rest, evs = SpiWrite 0x80 (Z.land (page ssx) 0x3) 0 :: rest /\
                 forallb (block_reg ssx) rest = true)).

(** The two callbacks [sx1301_radio_setup] installs in a controller, as
    the SPI core calls them one after the other. *)
Inductive radio_op : Type :=
| OpTransfer (ssx : spi_sx1301) (xfr : spi_transfer)
| OpSetCs (ssx : spi_sx1301) (enable : bool).

Definition op_ssx (op : radio_op) : spi_sx1301 :=
  match op with
  | OpTransfer ssx _ => ssx
  | OpSetCs ssx _ => ssx
  end.

Definition run_op (spi : spi_device) (op : radio_op) (s : sx1301_state)
  : sx1301_state :=
  match op with
  | OpTransfer ssx xfr => snd (sx1301_radio_spi_transfer_one spi ssx xfr s)
  | OpSetCs ssx enable => snd (sx1301_radio_spi_set_cs spi ssx enable s)
  end.

Fixpoint run_ops (spi : spi_device) (ops : list radio_op) (s : sx1301_state)
  : sx1301_state :=
  match ops with
  | [] => s
  | op :: rest => run_ops spi rest (run_op spi op s)
  end.

(** * Properties *)

(** ** Arithmetic of [u8] *)

Lemma u8_testbit z k :
  0 <= k -> Z.testbit (u8 z) k = if k <? 8 then Z.testbit z k else false.
Proof.
  intros Hk. unfold u8. change 256 with (2 ^ 8).
  destruct (k <? 8) eqn:E.
  - apply Z.mod_pow2_bits_low. lia.
  - apply Z.mod_pow2_bits_high. lia.
Qed.

Lemma u8_idem z : u8 (u8 z) = u8 z.
Proof. unfold u8. apply Z.mod_mod. lia. Qed.

(** ** Histories *)

Lemma new_io_app s s' evs : io s' = io s ++ evs -> new_io s s' = evs.
Proof. intros H. unfold new_io. rewrite H. apply drop_app_length. Qed.

Lemma new_io_same s : new_io s s = [].
Proof. apply new_io_app. now rewrite app_nil_r. Qed.

Section PagedStore.

Variable spi : spi_device.

(** ** [sx1301_page_switch] *)

Lemma sx1301_page_switch_same page s :
  cur_page s = page -> sx1301_page_switch spi page s = (0, s).
Proof.
  intros H. unfold sx1301_page_switch, bind, get_cur_page.
  rewrite H, Z.eqb_refl. reflexivity.
Qed.

Lemma sx1301_page_switch_other page s :
  cur_page s <> page ->
  let st := write_resp spi (io s) 0x80 (Z.land page 0x3) in
  let s1 := emit (SpiWrite 0x80 (Z.land page 0x3) st) s in
  sx1301_page_switch spi page s
  = (st, if st =? 0 then with_cur_page page s1 else s1).
Proof.
  intros H. cbv zeta.
  unfold sx1301_page_switch, bind, get_cur_page.
  apply Z.eqb_neq in H. rewrite H.
  unfold sx1301_write, spi_write, nonzero, set_cur_page, pure.
  change (u8 (Z.lor REG_PAGE_RESET (BIT 7))) with 0x80.
  destruct (write_resp spi (io s) 0x80 (Z.land page 0x3) =? 0) eqn:E;
    [apply Z.eqb_eq in E; rewrite E|]; reflexivity.
Qed.

Lemma page_switch_seq_cons p pages s :
  page_switch_seq spi (p :: pages) s
  = let r := sx1301_page_switch spi p s in
    let rs := page_switch_seq spi pages (snd r) in
    (fst r :: fst rs, snd rs).
Proof.
  cbn [page_switch_seq]. unfold bind, pure.
  destruct (sx1301_page_switch spi p s) as [r s1]. cbn [fst snd].
  destruct (page_switch_seq spi pages s1) as [rs s2]. reflexivity.
Qed.

Lemma page_switch_seq_cur_page pages s :
  cur_page (snd (page_switch_seq spi pages s))
  = last_confirmed_page (cur_page s) pages (fst (page_switch_seq spi pages s)).
Proof.
  revert s. induction pages as [|p pages IH]; intros s; [reflexivity|].
  rewrite page_switch_seq_cons. cbv zeta. cbn [fst snd last_confirmed_page].
  rewrite IH. f_equal.
  destruct (Z.eq_dec (cur_page s) p) as [Heq|Hne].
  - rewrite (sx1301_page_switch_same _ _ Heq). cbn. congruence.
  - rewrite (sx1301_page_switch_other _ _ Hne). cbv zeta. cbn [fst snd].
    destruct (_ =? 0); reflexivity.
Qed.

(** C1: in the state reached by any run of [switch_page] calls, the next
    call puts a page-select write on the bus if and only if its target
    differs from the cached page; with an equal target it returns 0 and
    leaves the state, history included, as it was; otherwise the one event
    it adds is the write of [target & 0x3] to register 0 (first byte 0x80
    on the wire), and the cache takes the target exactly when that write
    succeeded.  The cached page is the target of the latest call that
    returned success. *)
Theorem sx1301_page_switch_write_iff (pages : list Z) (s0 : sx1301_state)
    (target : Z) :
  let s := snd (page_switch_seq spi pages s0) in
  let r := sx1301_page_switch spi target s in
  cur_page s
  = last_confirmed_page (cur_page s0) pages
      (fst (page_switch_seq spi pages s0)) /\
  (cur_page s <> target <->
   exists st, new_io s (snd r) = [SpiWrite 0x80 (Z.land target 0x3) st]) /\
  (cur_page s = target <-> new_io s (snd r) = []) /\
  (cur_page s = target -> r = (0, s)) /\
  (cur_page s <> target ->
   io (snd r) = io s ++ [SpiWrite 0x80 (Z.land target 0x3) (fst r)] /\
   cur_page (snd r) = if fst r =? 0 then target else cur_page s).
Proof.
  cbv zeta. set (s := snd (page_switch_seq spi pages s0)).
  split; [apply page_switch_seq_cur_page|].
  destruct (Z.eq_dec (cur_page s) target) as [Heq|Hne].
  - rewrite (sx1301_page_switch_same _ _ Heq). cbn [fst snd].
    rewrite new_io_same.
    repeat split; try congruence; try tauto.
    intros [st Hst]. discriminate.
  - rewrite (sx1301_page_switch_other _ _ Hne). cbv zeta. cbn [fst snd].
    set (st := write_resp spi (io s) 128 (Z.land target 3)).
    assert (Hio : io (if st =? 0
                      then with_cur_page target
                             (emit (SpiWrite 128 (Z.land target 3) st) s)
                      else emit (SpiWrite 128 (Z.land target 3) st) s)
                  = io s ++ [SpiWrite 128 (Z.land target 3) st])
      by (destruct (st =? 0); reflexivity).
    rewrite (new_io_app _ _ _ Hio).
    split; [split; [intros _; now exists st | intros _; exact Hne]|].
    split; [split; [intros Heq; contradiction | intros Hnil; discriminate]|].
    split; [intros Heq; contradiction|].
    intros _. split; [exact Hio|]. destruct (st =? 0); reflexivity.
Qed.

(** C2: when the page-select write fails, [switch_page] returns the bus
    error, the cached page keeps its previous value, and the next
    [switch_page] to the same target puts the page-select write on the bus
    again. *)
Theorem sx1301_page_switch_failure_retries (target : Z) (s : sx1301_state)
    (Hne : cur_page s <> target)
    (Hfail : write_resp spi (io s) 0x80 (Z.land target 0x3) <> 0) :
  let r1 := sx1301_page_switch spi target s in
  let r2 := sx1301_page_switch spi target (snd r1) in
  fst r1 = write_resp spi (io s) 0x80 (Z.land target 0x3) /\
  fst r1 <> 0 /\
  cur_page (snd r1) = cur_page s /\
  io (snd r1) = io s ++ [SpiWrite 0x80 (Z.land target 0x3) (fst r1)] /\
  io (snd r2) = io (snd r1) ++ [SpiWrite 0x80 (Z.land target 0x3) (fst r2)].
Proof.
  cbv zeta.
  rewrite (sx1301_page_switch_other _ _ Hne). cbv zeta. cbn [fst snd].
  assert (Hb : (write_resp spi (io s) 0x80 (Z.land target 0x3) =? 0) = false)
    by (apply Z.eqb_neq; exact Hfail).
  rewrite Hb.
  repeat split; try assumption.
  rewrite sx1301_page_switch_other by exact Hne.
  cbv zeta. cbn [fst snd].
  match goal with |- context [if ?b then _ else _] => destruct b end;
    reflexivity.
Qed.

End PagedStore.

(** A bus that rejects every page-select write: page 2 is never cached,
    and the second call tries again. *)
Lemma sx1301_page_switch_failure_retries_witness :
  let spi := write_fails_device 0x80 (- EIO) 0 in
  let r1 := sx1301_page_switch spi 2 init_state in
  let r2 := sx1301_page_switch spi 2 (snd r1) in
  fst r1 = - EIO /\ cur_page (snd r1) = 0 /\
  io (snd r2) = [SpiWrite 0x80 2 (- EIO); SpiWrite 0x80 2 (- EIO)].
Proof.
  cbv zeta.
  pose proof (sx1301_page_switch_failure_retries
                (write_fails_device 0x80 (- EIO) 0) 2 init_state
                ltac:(vm_compute; discriminate)
                ltac:(vm_compute; discriminate))
    as (H1 & _ & H3 & H4 & H5).
  split; [exact H1 | split; [exact H3 | exact H5]].
Defined.

(** ** Running the monad one call at a time *)

Lemma bind_run {A B} (m : M A) (k : A -> M B) s :
  bind m k s = let (a, s') := m s in k a s'.
Proof. reflexivity. Qed.

Lemma sx1301_write_run spi reg val s :
  sx1301_write spi reg val s
  = (write_resp spi (io s) (u8 (Z.lor reg (BIT 7))) val,
     emit (SpiWrite (u8 (Z.lor reg (BIT 7))) val
             (write_resp spi (io s) (u8 (Z.lor reg (BIT 7))) val)) s).
Proof. reflexivity. Qed.

Lemma sx1301_read_run spi reg val s :
  sx1301_read spi reg val s
  = let r := read_resp spi (io s) (Z.land reg 0x7f) in
    ((fst r, if fst r =? 0 then u8 (snd r) else val),
     emit (SpiWriteThenRead (Z.land reg 0x7f) (fst r) (u8 (snd r))) s).
Proof.
  unfold sx1301_read, spi_write_then_read.
  destruct (read_resp spi (io s) (Z.land reg 127)); reflexivity.
Qed.

Ltac state_simpl :=
  cbn [io cur_page priv_cur_page controllers emit with_cur_page
       with_priv_cur_page with_controllers fst snd].

Ltac gen_write :=
  match goal with
  | |- context [write_resp ?d ?h ?a ?b] =>
      let st := fresh "st" in generalize (write_resp d h a b); intro st
  end.

Ltac gen_read :=
  match goal with
  | |- context [read_resp ?d ?h ?a] =>
      let st := fresh "st" in
      let rx := fresh "rx" in
      destruct (read_resp d h a) as [st rx]; cbn [fst snd]
  end.

Ltac case_status st :=
  change (nonzero st) with (negb (st =? 0));
  destruct (Z.eqb_spec st 0); [subst st|]; cbn [negb]; cbv beta iota.

Ltac io_norm :=
  state_simpl; rewrite <- ?app_assoc; cbn [app].

(** ** Chip select *)

Section ChipSelect.

Variable spi : spi_device.

Lemma cs_value_bit0 enable st rx : Z.testbit (cs_value enable st rx) 0 = enable.
Proof.
  unfold cs_value. destruct enable; rewrite u8_testbit by lia; cbn [Z.ltb Z.compare].
  - rewrite Z.lor_spec. cbn. apply orb_true_r.
  - rewrite Z.land_spec. cbn. apply andb_false_r.
Qed.

Lemma cs_value_read_failed enable st rx :
  st <> 0 -> cs_value enable st rx = if enable then 1 else 0.
Proof.
  intros H. unfold cs_value, nonzero.
  destruct (Z.eqb_spec st 0); [contradiction|]. destruct enable; reflexivity.
Qed.

(** [sx1301_radio_set_cs] is a page switch and, when that succeeded, a
    read of the chip-select register followed by a write; its result is
    then 0 whatever the two transfers returned. *)
Lemma sx1301_radio_set_cs_run ssx enable s :
  sx1301_radio_set_cs spi ssx enable s
  = let p := sx1301_page_switch spi (page ssx) s in
    if nonzero (fst p) then p else
    let r := read_resp spi (io (snd p)) (cs_read_cmd ssx) in
    let s1 := emit (SpiWriteThenRead (cs_read_cmd ssx) (fst r) (u8 (snd r)))
                (snd p) in
    let w := cs_value enable (fst r) (snd r) in
    (0, emit (SpiWrite (cs_write_cmd ssx) w
                (write_resp spi (io s1) (cs_write_cmd ssx) w)) s1).
Proof.
  cbv zeta. unfold sx1301_radio_set_cs. rewrite bind_run.
  destruct (sx1301_page_switch spi (page ssx) s) as [ret s1]. cbn [fst snd].
  destruct (nonzero ret); [reflexivity|].
  rewrite bind_run, sx1301_read_run. cbv beta iota zeta.
  fold (cs_read_cmd ssx).
  destruct (read_resp spi (io s1) (cs_read_cmd ssx)) as [st rx]. cbn [fst snd].
  rewrite bind_run, sx1301_write_run. cbv beta iota.
  reflexivity.
Qed.

Lemma sx1301_radio_set_cs_on_page ssx enable s :
  cur_page s = page ssx ->
  let r := read_resp spi (io s) (cs_read_cmd ssx) in
  let s1 := emit (SpiWriteThenRead (cs_read_cmd ssx) (fst r) (u8 (snd r))) s in
  let w := cs_value enable (fst r) (snd r) in
  sx1301_radio_set_cs spi ssx enable s
  = (0, emit (SpiWrite (cs_write_cmd ssx) w
                (write_resp spi (io s1) (cs_write_cmd ssx) w)) s1).
Proof.
  intros Hp. rewrite sx1301_radio_set_cs_run. cbv zeta.
  rewrite (sx1301_page_switch_same _ _ _ Hp). reflexivity.
Qed.

(** The status of [sx1301_radio_set_cs] is the status of its page
    switch and nothing else. *)
Lemma sx1301_radio_set_cs_status ssx enable s :
  fst (sx1301_radio_set_cs spi ssx enable s)
  = fst (sx1301_page_switch spi (page ssx) s).
Proof.
  unfold sx1301_radio_set_cs. rewrite bind_run.
  destruct (sx1301_page_switch spi (page ssx) s) as [ret s1] eqn:E.
  cbn [fst]. unfold nonzero. destruct (Z.eqb_spec ret 0) as [->|Hne]; cbn [negb].
  - rewrite bind_run, sx1301_read_run. cbv beta iota zeta.
    rewrite bind_run, sx1301_write_run. reflexivity.
  - reflexivity.
Qed.

(** A failed read of the chip-select register does not stop
    [sx1301_radio_set_cs]: the value is taken as 0, bit 0 is set or
    cleared in it, and the result is written back. *)
Lemma sx1301_radio_set_cs_read_failure ssx enable s :
  cur_page s = page ssx ->
  fst (read_resp spi (io s) (cs_read_cmd ssx)) <> 0 ->
  exists st rx st',
    st <> 0 /\
    sx1301_radio_set_cs spi ssx enable s
    = (0, emit (SpiWrite (cs_write_cmd ssx) (if enable then 1 else 0) st')
            (emit (SpiWriteThenRead (cs_read_cmd ssx) st rx) s)).
Proof.
  intros Hp Hr. rewrite (sx1301_radio_set_cs_on_page _ _ _ Hp). cbv zeta.
  rewrite (cs_value_read_failed _ _ _ Hr).
  eexists _, _, _. split; [exact Hr | reflexivity].
Qed.

End ChipSelect.

(** Radio A on a bus where the read of the chip-select register fails:
    the deselect still writes 0, the select still writes 1, and both
    return 0. *)
Example sx1301_radio_set_cs_read_failure_radio_a :
  let s := {| cur_page := 2; priv_cur_page := 0xff;
         controllers := [radio_a; radio_b]; io := [] |} in
  let spi := read_fails_device 37 (- EIO) in
  fst (sx1301_radio_set_cs spi radio_a false s) = 0 /\
  io (snd (sx1301_radio_set_cs spi radio_a false s))
  = [SpiWriteThenRead 37 (- EIO) 0; SpiWrite 0xA5 0 0] /\
  io (snd (sx1301_radio_set_cs spi radio_a true s))
  = [SpiWriteThenRead 37 (- EIO) 0; SpiWrite 0xA5 1 0].
Proof. vm_compute. repeat split; reflexivity. Qed.

(** C3: on a bus where the write to radio A's chip-select register fails
    with -EIO, [sx1301_radio_set_cs] reads the register, attempts the
    write, and returns 0: the caller is not told of the failure. *)
Theorem sx1301_radio_set_cs_write_failure_returns_0 :
  run (sx1301_radio_set_cs (write_fails_device 0xA5 (- EIO) 0xCC) radio_a true)
      {| cur_page := 2; priv_cur_page := 0xff;
         controllers := [radio_a; radio_b]; io := [] |}
  = (0, {| cur_page := 2; priv_cur_page := 0xff;
           controllers := [radio_a; radio_b];
           io := [SpiWriteThenRead 37 0 0xCC; SpiWrite 0xA5 0xCD (- EIO)] |}).
Proof. vm_compute. reflexivity. Qed.

(** ** Bring-up *)

Lemma clear_only_mask_changed mask v :
  only_mask_changed mask (u8 v) (u8 (Z.land (u8 v) (Z.lnot mask))).
Proof.
  intros k Hk Hm. rewrite (u8_testbit (Z.land _ _)) by exact Hk.
  destruct (k <? 8) eqn:E.
  - rewrite Z.land_spec, Z.lnot_spec, Hm by exact Hk. apply andb_true_r.
  - rewrite u8_testbit, E by exact Hk. reflexivity.
Qed.

Lemma set_only_mask_changed mask v :
  only_mask_changed mask (u8 v) (u8 (Z.lor (u8 v) mask)).
Proof.
  intros k Hk Hm. rewrite (u8_testbit (Z.lor _ _)) by exact Hk.
  destruct (k <? 8) eqn:E.
  - rewrite Z.lor_spec, Hm. apply orb_false_r.
  - rewrite u8_testbit, E by exact Hk. reflexivity.
Qed.

Ltac step_unit :=
  rewrite bind_run;
  cbv beta iota delta [msleep spi_setup gpiod_set_value_cansleep
                       set_cur_page set_priv_cur_page spi_set_drvdata
                       set_controllers].

Ltac exec_write :=
  rewrite bind_run, sx1301_write_run; cbv beta iota;
  match goal with
  | |- context [write_resp ?d ?h ?a ?b] =>
      let st := fresh "st" in
      generalize (write_resp d h a b); intro st; case_status st
  end.

Ltac exec_read :=
  rewrite bind_run, sx1301_read_run; cbv beta iota zeta;
  match goal with
  | |- context [read_resp ?d ?h ?a] =>
      let st := fresh "st" in
      let rx := fresh "rx" in
      destruct (read_resp d h a) as [st rx]; cbn [fst snd]; case_status st
  end.

(** The probe's switch to page 2, with the content of the cache known
    to be 2 or known to be something else. *)
Ltac exec_page_switch leaf :=
  rewrite bind_run;
  first
    [ rewrite sx1301_page_switch_same by (state_simpl; assumption);
      cbv beta iota; change (nonzero 0) with false; cbv beta iota
    | rewrite sx1301_page_switch_other by (state_simpl; assumption);
      cbv beta iota zeta;
      match goal with
      | |- context [write_resp ?d ?h ?a ?b] =>
          let st := fresh "st" in
          generalize (write_resp d h a b); intro st; case_status st
      end; [|leaf] ].

Ltac probe_leaf :=
  unfold probe_io_spec, pure; cbn [fst snd];
  eexists (Build_bringup_reads _ _ _ _ _ _);
  erewrite new_io_app by (io_norm; reflexivity);
  split; [io_norm; reflexivity|];
  split;
  [ cbn [map strip_status]; eexists; cbn; reflexivity
  | let H := fresh in
    intros H;
    first [ contradiction | discriminate H | (vm_compute in H; discriminate H) ] ].

Ltac exec_flag :=
  match goal with
  | |- context [negb (?f ?pf)] => destruct (f pf); cbn [negb]
  end.

Ltac exec_register :=
  match goal with
  | |- context [nonzero (?f ?pf)] =>
      change (nonzero (f pf)) with (negb (f pf =? 0));
      destruct (Z.eqb_spec (f pf) 0); cbn [negb]
  end.

Lemma sx1301_probe_io spi pf s :
  probe_io_spec s (has_reset_gpio pf) (page_select_needed pf)
    (sx1301_probe spi pf s).
Proof.
  unfold sx1301_probe, has_reset_gpio, page_select_needed.
  destruct (reset_gpio pf) as [e|rst].
  { unfold probe_io_spec, pure. cbn [fst snd].
    exists (Build_bringup_reads 0 0 0 0 0 0).
    rewrite new_io_same. split; [now rewrite app_nil_r|].
    split; [apply prefix_nil | discriminate]. }
  destruct (Z.eqb_spec (u8 (netdev_page_byte pf)) 2) as [Hc|Hc]; cbn [negb].
  all: destruct rst; do 5 step_unit.
  all: exec_read; [|probe_leaf].
  all: match goal with
       | |- context [negb (?v =? 103)] =>
           destruct (v =? 103) eqn:Hver; cbn [negb]; [|probe_leaf]
       end.
  all: exec_flag; [|probe_leaf].
  all: do 2 step_unit.
  all: exec_write; [|probe_leaf].
  all: unfold sx1301_soft_reset.
  all: exec_write; [|probe_leaf].
  all: exec_read; [|probe_leaf].
  all: exec_write; [|probe_leaf].
  all: exec_read; [|probe_leaf].
  all: exec_write; [|probe_leaf].
  all: exec_page_switch probe_leaf.
  all: exec_read; [|probe_leaf].
  all: exec_write; [|probe_leaf].
  all: step_unit.
  all: exec_read; [|probe_leaf].
  all: exec_write; [|probe_leaf].
  all: step_unit.
  all: exec_read; [|probe_leaf].
  all: exec_write; [|probe_leaf].
  all: exec_flag; [|probe_leaf].
  all: exec_register; [|probe_leaf].
  all: step_unit.
  all: exec_flag; [|step_unit; probe_leaf].
  all: exec_register; [|step_unit; probe_leaf].
  all: step_unit.
  all: unfold probe_io_spec, pure; cbn [fst snd].
  all: eexists (Build_bringup_reads _ _ _ _ _ _).
  all: erewrite new_io_app by (io_norm; reflexivity).
  all: split; [io_norm; reflexivity|].
  all: split; [eexists; cbn; reflexivity|].
  all: intros _; split; [reflexivity|].
  all: split; [apply Z.eqb_eq; exact Hver|].
  all: split; [state_simpl; first [reflexivity | exact Hc] | reflexivity].
  Unshelve. all: exact 0.
Qed.

(** C8: in every run of the probe, whatever the chip answers and wherever
    the run stops, each read-modify-write step writes back the byte it
    just read with only the bits of its own mask changed: bit 3 at
    address 16, bit 0 at address 17, bits 0 and 1 and then bit 2 (set,
    then cleared) at address 43.  The I/O of the run is an initial segment
    of [bringup_io], in which the page-select write before the steps at
    address 43 is there exactly when the byte the page cache reads did not
    already hold 2; its written bytes are the [wr_] functions of the bytes
    read, and each of these agrees with the byte read on every bit outside
    the mask. *)
Theorem sx1301_probe_rmw_only_mask_changed (spi : spi_device) (pf : platform)
    (s : sx1301_state) :
  exists rd,
    io (snd (sx1301_probe spi pf s))
    = io s ++ new_io s (snd (sx1301_probe spi pf s)) /\
    map strip_status (new_io s (snd (sx1301_probe spi pf s)))
      `prefix_of` bringup_io (has_reset_gpio pf) (page_select_needed pf) rd /\
    only_mask_changed REG_16_GLOBAL_EN (u8 (rd_16 rd)) (wr_16 rd) /\
    only_mask_changed REG_17_CLK32M_EN (u8 (rd_17 rd)) (wr_17 rd) /\
    only_mask_changed (Z.lor REG_2_43_RADIO_B_EN REG_2_43_RADIO_A_EN)
      (u8 (rd_43_enable rd)) (wr_43_enable rd) /\
    only_mask_changed REG_2_43_RADIO_RST
      (u8 (rd_43_reset rd)) (wr_43_reset rd) /\
    only_mask_changed REG_2_43_RADIO_RST
      (u8 (rd_43_release rd)) (wr_43_release rd).
Proof.
  destruct (sx1301_probe_io spi pf s) as (rd & Hio & Hpre & _).
  exists rd. split; [exact Hio|]. split; [exact Hpre|].
  repeat split;
    first [apply clear_only_mask_changed | apply set_only_mask_changed].
Qed.

(** A chip whose registers all hold 0xff: the extra bits survive every
    step of a full bring-up. *)
Example sx1301_probe_preloaded_registers :
  new_io init_state (snd (sx1301_probe (regfile_device 103 0xff) board init_state))
  = [GpioSet 1; Msleep 100; GpioSet 0; Msleep 100; SpiSetup 8;
     SpiWriteThenRead 1 0 103; SpiWrite 0x80 0 0; SpiWrite 0x80 0x80 0;
     SpiWriteThenRead 16 0 0xff; SpiWrite 0x90 0xf7 0;
     SpiWriteThenRead 17 0 0xff; SpiWrite 0x91 0xfe 0;
     SpiWrite 0x80 2 0;
     SpiWriteThenRead 43 0 0xff; SpiWrite 0xAB 0xff 0; Msleep 500;
     SpiWriteThenRead 43 0 0xff; SpiWrite 0xAB 0xff 0; Msleep 5;
     SpiWriteThenRead 43 0 0xff; SpiWrite 0xAB 0xfb 0].
Proof. vm_compute. reflexivity. Qed.

(** [sx1301_soft_reset] is one write of the soft-reset bit (bit 7) to
    address 0, past the page cache: it returns the status of that write
    and stores nothing, neither in the byte [sx1301_page_switch] consults
    nor in the private data. *)
Lemma sx1301_soft_reset_run spi s :
  let st := write_resp spi (io s) 0x80 0x80 in
  sx1301_soft_reset spi s = (st, emit (SpiWrite 0x80 0x80 st) s).
Proof.
  cbv zeta. unfold sx1301_soft_reset. rewrite sx1301_write_run. reflexivity.
Qed.


(** The register-file chip on a board whose [net_device] holds 2 in the
    byte read as the page cache: the bring-up completes and returns 0
    without a page-select write, although the soft reset came before the
    switch to page 2 and the sentinel is in the private data. *)
Example sx1301_probe_page_select_skipped :
  let r := sx1301_probe (regfile_device 103 0) (board_with_page_byte 2)
             init_state in
  fst r = 0 /\
  priv_cur_page (snd r) = 0xff /\
  cur_page (snd r) = 2 /\
  new_io init_state (snd r)
  = [GpioSet 1; Msleep 100; GpioSet 0; Msleep 100; SpiSetup 8;
     SpiWriteThenRead 1 0 103; SpiWrite 0x80 0 0; SpiWrite 0x80 0x80 0;
     SpiWriteThenRead 16 0 0; SpiWrite 0x90 0 0;
     SpiWriteThenRead 17 0 0; SpiWrite 0x91 0 0;
     SpiWriteThenRead 43 0 0; SpiWrite 0xAB 3 0; Msleep 500;
     SpiWriteThenRead 43 0 3; SpiWrite 0xAB 7 0; Msleep 5;
     SpiWriteThenRead 43 0 7; SpiWrite 0xAB 3 0].
Proof. vm_compute. repeat split; reflexivity. Qed.

Lemma sx1301_probe_until_version spi pf s rst :
  reset_gpio pf = inr rst ->
  let h := io s ++ reset_pulse rst ++ [SpiSetup 8] in
  let r := read_resp spi h REG_VERSION in
  let ev := SpiWriteThenRead REG_VERSION (fst r) (u8 (snd r)) in
  (fst r <> 0 ->
   fst (sx1301_probe spi pf s) = fst r /\
   io (snd (sx1301_probe spi pf s)) = h ++ [ev]) /\
  (fst r = 0 -> u8 (snd r) <> 103 ->
   fst (sx1301_probe spi pf s) = - ENXIO /\
   io (snd (sx1301_probe spi pf s)) = h ++ [ev] /\
   cur_page (snd (sx1301_probe spi pf s)) = cur_page s /\
   controllers (snd (sx1301_probe spi pf s)) = controllers s).
Proof.
  intros Hrst. cbv zeta. unfold sx1301_probe. rewrite Hrst.
  destruct rst; do 5 step_unit.
  all: rewrite bind_run, sx1301_read_run; cbv beta iota zeta.
  all: state_simpl; rewrite <- ?app_assoc; cbn [app reset_pulse].
  all: change (Z.land REG_VERSION 127) with REG_VERSION.
  all: match goal with
       | |- context [read_resp ?d ?h ?a] =>
           destruct (read_resp d h a) as [st rx]; cbn [fst snd]
       end.
  all: case_status st.
  all: (split; [intros H | intros H0 Hbad]); try contradiction.
  all: try (apply Z.eqb_neq in Hbad; rewrite Hbad; cbn [negb]).
  all: unfold pure; repeat split; io_norm; reflexivity.
Qed.

(** C5: when the version register reads successfully but holds a byte
    other than 103, the probe returns the driver's own -ENXIO (not 0, and
    not a status of the SPI core), leaves the page cache and the
    controllers untouched, and its whole I/O is the reset pulse, the SPI
    setup and that one read: nothing is read or written after the check.
    On a bus where the same read fails, the probe instead returns the
    status the SPI core gave. *)
Theorem sx1301_probe_unexpected_version (spi : spi_device) (pf : platform)
    (s : sx1301_state) (rst : bool) (v : Z)
    (Hrst : reset_gpio pf = inr rst)
    (Hver : read_resp spi (io s ++ reset_pulse rst ++ [SpiSetup 8]) REG_VERSION
            = (0, v))
    (Hbad : u8 v <> 103) :
  let r := sx1301_probe spi pf s in
  fst r = - ENXIO /\ - ENXIO <> 0 /\
  new_io s (snd r)
  = reset_pulse rst ++ [SpiSetup 8; SpiWriteThenRead REG_VERSION 0 (u8 v)] /\
  cur_page (snd r) = cur_page s /\
  controllers (snd r) = controllers s /\
  (forall spi' e v',
     read_resp spi' (io s ++ reset_pulse rst ++ [SpiSetup 8]) REG_VERSION
     = (e, v') ->
     e <> 0 ->
     fst (sx1301_probe spi' pf s) = e /\
     new_io s (snd (sx1301_probe spi' pf s))
     = reset_pulse rst ++ [SpiSetup 8; SpiWriteThenRead REG_VERSION e (u8 v')]).
Proof.
  cbv zeta.
  destruct (sx1301_probe_until_version spi pf s rst Hrst) as [_ Hmis].
  cbv zeta in Hmis. rewrite Hver in Hmis. cbn [fst snd] in Hmis.
  destruct (Hmis eq_refl Hbad) as (Hret & Hio & Hpage & Hctrl).
  split; [exact Hret|]. split; [discriminate|].
  split; [apply new_io_app; rewrite Hio, <- !app_assoc; reflexivity|].
  split; [exact Hpage|]. split; [exact Hctrl|].
  intros spi' e v' Hresp He.
  destruct (sx1301_probe_until_version spi' pf s rst Hrst) as [Hfail _].
  cbv zeta in Hfail. rewrite Hresp in Hfail. cbn [fst snd] in Hfail.
  destruct (Hfail He) as [Hret' Hio'].
  split; [exact Hret'|].
  apply new_io_app. rewrite Hio', <- !app_assoc. reflexivity.
Qed.

(** A chip that reports version 104. *)
Lemma sx1301_probe_unexpected_version_witness :
  fst (sx1301_probe (regfile_device 104 0) board init_state) = - ENXIO /\
  new_io init_state (snd (sx1301_probe (regfile_device 104 0) board init_state))
  = [GpioSet 1; Msleep 100; GpioSet 0; Msleep 100; SpiSetup 8;
     SpiWriteThenRead 1 0 104].
Proof.
  pose proof (sx1301_probe_unexpected_version
                (regfile_device 104 0) board init_state true 104
                eq_refl eq_refl ltac:(vm_compute; discriminate))
    as (H1 & _ & H3 & _).
  split; [exact H1 | exact H3].
Defined.

(** ** Transfers *)

Lemma store_at_same buf i : store_at buf i (byte_at buf i) = buf.
Proof.
  unfold store_at, byte_at.
  destruct (buf !! Z.to_nat i) as [x|] eqn:E; cbn [default].
  - apply list_insert_id. exact E.
  - apply list_insert_ge. apply lookup_ge_None. exact E.
Qed.

Lemma cs_read_cmd_not_rb ssx : (cs_read_cmd ssx =? rb_read_cmd ssx) = false.
Proof.
  apply Z.eqb_neq. unfold cs_read_cmd, rb_read_cmd, u8.
  unfold REG_RADIO_X_CS, REG_RADIO_X_DATA_READBACK.
  change 127 with (Z.ones 7). rewrite !Z.land_ones by lia.
  change (2 ^ 7) with 128. intros H.
  Z.div_mod_to_equations. lia.
Qed.

(** The transfer runs with [Hlen : valid length] down every path; the
    tactic leaves one goal per way the transfer can end. *)
Ltac transfer_paths :=
  unfold sx1301_radio_spi_transfer_one;
  match goal with
  | H : (_ =? 0) || (_ >? 3) = false |- _ => rewrite H
  end;
  rewrite bind_run;
  match goal with
  | |- context [sx1301_page_switch ?spi ?p ?s] =>
      let Hp := fresh "Hp" in
      destruct (Z.eq_dec (cur_page s) p) as [Hp|Hp];
      [ rewrite (sx1301_page_switch_same spi p s Hp); cbv beta iota;
        cbn [nonzero Z.eqb negb]
      | rewrite (sx1301_page_switch_other spi p s Hp); cbv zeta;
        match goal with
        | |- context [write_resp ?d ?h ?a ?b] =>
            let st := fresh "st" in
            generalize (write_resp d h a b); intro st;
            destruct (Z.eqb_spec st 0); [subst st|]; cbv beta iota;
            [ cbn [nonzero Z.eqb negb]
            | change (nonzero st) with (negb (st =? 0));
              destruct (Z.eqb_spec st 0); [contradiction|]; cbn [negb] ]
        end ]
  end.

Ltac exec_set_cs Hp :=
  rewrite bind_run, sx1301_radio_set_cs_on_page
    by (state_simpl; first [exact Hp | reflexivity]);
  cbv beta iota zeta; cbn [nonzero Z.eqb negb];
  gen_read; gen_write.

Section Transfer.

Variable spi : spi_device.

Lemma valid_len_test xfr :
  1 <= len xfr <= 3 -> (len xfr =? 0) || (len xfr >? 3) = false.
Proof.
  intros H. apply orb_false_iff. split; [apply Z.eqb_neq; lia|].
  rewrite Z.gtb_ltb. apply Z.ltb_ge. lia.
Qed.

(** C9: a transfer of length 0 or of more than 3 bytes is refused with
    -EINVAL, and nothing else happens: no page switch, no read, no write;
    the state, I/O history included, and the transfer are as before. *)
Theorem sx1301_radio_spi_transfer_one_invalid_len (ssx : spi_sx1301)
    (xfr : spi_transfer) (s : sx1301_state)
    (Hlen : len xfr = 0 \/ len xfr > 3) :
  sx1301_radio_spi_transfer_one spi ssx xfr s = ((- EINVAL, xfr), s) /\
  new_io s (snd (sx1301_radio_spi_transfer_one spi ssx xfr s)) = [] /\
  - EINVAL <> 0.
Proof.
  assert (Ht : (len xfr =? 0) || (len xfr >? 3) = true).
  { apply orb_true_iff. destruct Hlen as [H|H].
    - left. apply Z.eqb_eq. exact H.
    - right. rewrite Z.gtb_ltb. apply Z.ltb_lt. lia. }
  unfold sx1301_radio_spi_transfer_one. rewrite Ht. unfold pure.
  cbn [snd]. rewrite new_io_same. repeat split. discriminate.
Qed.

End Transfer.

(** A transfer of 4 bytes, and one of none. *)
Lemma sx1301_radio_spi_transfer_one_invalid_len_witness :
  (let xfr := {| tx_buf := Some [1; 2; 3; 4]; rx_buf := None; len := 4 |} in
   sx1301_radio_spi_transfer_one (const_device 0) radio_a xfr init_state
   = ((- EINVAL, xfr), init_state)) /\
  (let xfr := {| tx_buf := None; rx_buf := Some []; len := 0 |} in
   sx1301_radio_spi_transfer_one (const_device 0) radio_b xfr init_state
   = ((- EINVAL, xfr), init_state)).
Proof.
  split.
  - exact (proj1 (sx1301_radio_spi_transfer_one_invalid_len
                    (const_device 0) radio_a
                    {| tx_buf := Some [1; 2; 3; 4]; rx_buf := None; len := 4 |}
                    init_state ltac:(right; reflexivity))).
  - exact (proj1 (sx1301_radio_spi_transfer_one_invalid_len
                    (const_device 0) radio_b
                    {| tx_buf := None; rx_buf := Some []; len := 0 |}
                    init_state ltac:(left; reflexivity))).
Defined.

Ltac new_io_solve :=
  first [ rewrite new_io_same
        | erewrite new_io_app by (io_norm; reflexivity) ].

Ltac readback_leaf Hrx Hwf :=
  unfold readback_spec, pure; cbn [fst snd rx_buf];
  new_io_solve;
  rewrite ?store_at_same;
  eexists; split; [io_norm; reflexivity|];
  split; [first [exact Hrx | reflexivity]|];
  split; [first [reflexivity | apply length_insert]|];
  split;
  [ let i := fresh "i" in
    let Hi := fresh "Hi" in
    intros i Hi;
    first [reflexivity | apply list_lookup_insert_ne; congruence]
  |];
  cbn [count_reads is_read_of];
  rewrite ?cs_read_cmd_not_rb, ?Z.eqb_refl;
  first
    [ left; split; [reflexivity|]; split; [assumption | reflexivity]
    | right; split; [reflexivity|];
      eexists _, _; split; [reflexivity|]; split; [reflexivity|];
      split;
      [ let H0 := fresh "H0" in
        intros H0;
        first [contradiction | apply list_lookup_insert_eq; lia]
      | let H0 := fresh "H0" in
        intros H0; first [reflexivity | contradiction] ] ].

Ltac cs_leaf :=
  unfold pure; cbn [fst snd];
  new_io_solve;
  cbn [cs_asserts_released no_cs_assert forallb is_cs_assert is_cs_deassert
       is_read_of];
  rewrite ?cs_value_bit0; vm_compute; reflexivity.

(** C7: for a transfer of 1 to 3 bytes with an incoming buffer, whether or
    not it also has outgoing bytes, no run writes any position of the
    buffer other than the last, [len - 1].  A run either stops with an
    error before the incoming phase, and then it neither reads the block's
    data-readback register nor touches the buffer; or it reads that
    register exactly once, as its last step, returns the status of that
    read, and leaves the byte read in the last position when the read
    succeeded.  So every run that returns 0 has read the register exactly
    once and stored the byte at [len - 1]. *)
Theorem sx1301_radio_spi_transfer_one_readback_last (spi : spi_device)
    (ssx : spi_sx1301) (xfr : spi_transfer) (rx : list Z) (s : sx1301_state)
    (Hlen : 1 <= len xfr <= 3)
    (Hrx : rx_buf xfr = Some rx)
    (Hwf : length rx = Z.to_nat (len xfr)) :
  let r := sx1301_radio_spi_transfer_one spi ssx xfr s in
  let evs := new_io s (snd r) in
  let pos := Z.to_nat (len xfr - 1) in
  exists rx',
    io (snd r) = io s ++ evs /\
    rx_buf (snd (fst r)) = Some rx' /\
    length rx' = length rx /\
    (forall i, i <> pos -> rx' !! i = rx !! i) /\
    ((count_reads (rb_read_cmd ssx) evs = 0%nat /\
      fst (fst r) <> 0 /\ rx' = rx)
     \/
     (count_reads (rb_read_cmd ssx) evs = 1%nat /\
      exists st v,
        last evs = Some (SpiWriteThenRead (rb_read_cmd ssx) st v) /\
        fst (fst r) = st /\
        (st = 0 -> rx' !! pos = Some v) /\
        (st <> 0 -> rx' = rx))).
Proof.
  change (readback_spec ssx xfr rx s
            (sx1301_radio_spi_transfer_one spi ssx xfr s)).
  pose proof (valid_len_test xfr Hlen) as Hv.
  transfer_paths.
  all: try rewrite Hrx.
  all: destruct (tx_buf xfr) as [tx|] eqn:Htx.
  all: try (exec_write; [exec_write; [exec_set_cs Hp; exec_set_cs Hp|]|]).
  all: try exec_read.
  all: fold (rb_read_cmd ssx).
  all: readback_leaf Hrx Hwf.
Qed.

(** Three bytes, two of them outgoing, against a chip whose registers
    read 0xCC: the byte arrives in position 2. *)
Lemma sx1301_radio_spi_transfer_one_readback_last_witness :
  let xfr := {| tx_buf := Some [0xAA; 0xBB; 0]; rx_buf := Some [0; 0; 0];
                len := 3 |} in
  let r := sx1301_radio_spi_transfer_one (const_device 0xCC) radio_a xfr
             init_state in
  fst (fst r) = 0 /\
  exists rx', rx_buf (snd (fst r)) = Some rx' /\
              rx' !! 2%nat = Some 0xCC /\ rx' !! 0%nat = Some 0 /\
              rx' !! 1%nat = Some 0.
Proof.
  cbv zeta. split; [reflexivity|].
  destruct (sx1301_radio_spi_transfer_one_readback_last
              (const_device 0xCC) radio_a
              {| tx_buf := Some [0xAA; 0xBB; 0]; rx_buf := Some [0; 0; 0];
                 len := 3 |}
              [0; 0; 0] init_state ltac:(cbn; lia) eq_refl eq_refl)
    as (rx' & _ & Hbuf & _ & Hframe & Hcases).
  exists rx'. split; [exact Hbuf|].
  destruct Hcases as [(_ & Hret & _) | (_ & st & v & Hev & Hret & Hv & _)].
  - exfalso. apply Hret. reflexivity.
  - injection Hev as <- <-.
    split; [exact (Hv eq_refl)|].
    split; [exact (Hframe 0%nat ltac:(discriminate))
           | exact (Hframe 1%nat ltac:(discriminate))].
Defined.

(** ** Chip select on the two controllers *)

Lemma transfer_one_cs_asserts_released spi ssx xfr s :
  ssx = radio_a \/ ssx = radio_b ->
  cs_asserts_released ssx
    (new_io s (snd (sx1301_radio_spi_transfer_one spi ssx xfr s))) = true /\
  (tx_buf xfr = None ->
   no_cs_assert ssx
     (new_io s (snd (sx1301_radio_spi_transfer_one spi ssx xfr s))) = true).
Proof.
  intros Hssx.
  set (P := fun r : Z * spi_transfer * sx1301_state =>
              cs_asserts_released ssx (new_io s (snd r)) = true /\
              (tx_buf xfr = None ->
               no_cs_assert ssx (new_io s (snd r)) = true)).
  change (P (sx1301_radio_spi_transfer_one spi ssx xfr s)).
  destruct ((len xfr =? 0) || (len xfr >? 3)) eqn:Hv.
  { unfold sx1301_radio_spi_transfer_one. rewrite Hv. subst P. cbv beta.
    unfold pure. cbn [snd]. rewrite new_io_same. split; reflexivity. }
  destruct Hssx; subst ssx.
  all: transfer_paths.
  all: destruct (tx_buf xfr) as [tx|] eqn:Htx.
  all: try (exec_write; [exec_write; [exec_set_cs Hp; exec_set_cs Hp|]|]).
  all: destruct (rx_buf xfr) as [rxb|] eqn:Hrx.
  all: try exec_read.
  all: subst P; cbv beta.
  all: split; [|try discriminate; intros _].
  all: cs_leaf.
Qed.

Ltac history_leaf :=
  unfold pure; cbn [fst snd];
  new_io_solve; io_norm; rewrite ?app_nil_r; reflexivity.

(** The callback and the transfer only add to the history. *)
Lemma transfer_one_history spi ssx xfr s :
  io (snd (sx1301_radio_spi_transfer_one spi ssx xfr s))
  = io s ++ new_io s (snd (sx1301_radio_spi_transfer_one spi ssx xfr s)).
Proof.
  set (P := fun r : Z * spi_transfer * sx1301_state =>
              io (snd r) = io s ++ new_io s (snd r)).
  change (P (sx1301_radio_spi_transfer_one spi ssx xfr s)).
  destruct ((len xfr =? 0) || (len xfr >? 3)) eqn:Hv.
  { unfold sx1301_radio_spi_transfer_one. rewrite Hv. subst P. cbv beta.
    history_leaf. }
  transfer_paths.
  all: destruct (tx_buf xfr) as [tx|] eqn:Htx.
  all: try (exec_write; [exec_write; [exec_set_cs Hp; exec_set_cs Hp|]|]).
  all: destruct (rx_buf xfr) as [rxb|] eqn:Hrx.
  all: try exec_read.
  all: subst P; cbv beta.
  all: history_leaf.
Qed.

Lemma spi_set_cs_history spi ssx enable s :
  io (snd (sx1301_radio_spi_set_cs spi ssx enable s))
  = io s ++ new_io s (snd (sx1301_radio_spi_set_cs spi ssx enable s)).
Proof.
  unfold sx1301_radio_spi_set_cs. destruct enable; [history_leaf|].
  rewrite bind_run, sx1301_radio_set_cs_run. cbv zeta.
  destruct (Z.eq_dec (cur_page s) (page ssx)) as [Hp|Hp].
  - rewrite (sx1301_page_switch_same _ _ _ Hp).
    cbn [fst snd nonzero Z.eqb negb]. gen_read. gen_write. history_leaf.
  - rewrite (sx1301_page_switch_other _ _ _ Hp). cbv zeta. cbn [fst snd].
    gen_write. change (nonzero st) with (negb (st =? 0)).
    destruct (Z.eqb_spec st 0); cbn [negb].
    + gen_read. gen_write. history_leaf.
    + history_leaf.
Qed.

Lemma spi_set_cs_disable spi ssx s :
  ssx = radio_a \/ ssx = radio_b ->
  no_cs_assert ssx
    (new_io s (snd (sx1301_radio_spi_set_cs spi ssx false s))) = true /\
  (cur_page s = page ssx ->
   exists st v st',
     new_io s (snd (sx1301_radio_spi_set_cs spi ssx false s))
     = [SpiWriteThenRead (cs_read_cmd ssx) st v;
        SpiWrite (cs_write_cmd ssx) (cs_value false st v) st']).
Proof.
  intros Hssx. unfold sx1301_radio_spi_set_cs.
  rewrite bind_run, sx1301_radio_set_cs_run. cbv zeta.
  destruct (Z.eq_dec (cur_page s) (page ssx)) as [Hp|Hp].
  - rewrite (sx1301_page_switch_same _ _ _ Hp). cbn [fst snd nonzero Z.eqb negb].
    gen_read. gen_write. split.
    + destruct Hssx; subst ssx; cs_leaf.
    + intros _. exists st, (u8 rx), st0. unfold pure. cbn [snd].
      new_io_solve. unfold cs_value. rewrite u8_idem. reflexivity.
  - rewrite (sx1301_page_switch_other _ _ _ Hp). cbv zeta. cbn [fst snd].
    gen_write. split; [|intros Hp'; contradiction].
    change (nonzero st) with (negb (st =? 0)).
    destruct (Z.eqb_spec st 0); cbn [negb].
    + gen_read. gen_write. destruct Hssx; subst ssx; cs_leaf.
    + destruct Hssx; subst ssx; cs_leaf.
Qed.

(** C10: on either controller the probe registers, the [set_cs] callback
    called with [enable = true] returns at once, leaving the state and the
    I/O history as they were; called with [enable = false] it never
    asserts chip-select, and with the block's page selected it is the
    read of the chip-select register followed by the write with bit 0
    cleared.  A transfer without outgoing bytes never asserts chip-select,
    and in every transfer each assert is followed at once by the read and
    the deasserting write of the chip-select register.  The I/O these
    statements speak of is what a call adds to a history that it
    otherwise leaves alone. *)
Theorem sx1301_radio_cs_asserted_only_in_tx_path (spi : spi_device)
    (ssx : spi_sx1301) (Hssx : ssx = radio_a \/ ssx = radio_b) :
  (forall s, sx1301_radio_spi_set_cs spi ssx true s = (tt, s)) /\
  (forall s,
     no_cs_assert ssx
       (new_io s (snd (sx1301_radio_spi_set_cs spi ssx false s))) = true) /\
  (forall s,
     cur_page s = page ssx ->
     exists st v st',
       new_io s (snd (sx1301_radio_spi_set_cs spi ssx false s))
       = [SpiWriteThenRead (cs_read_cmd ssx) st v;
          SpiWrite (cs_write_cmd ssx) (cs_value false st v) st'] /\
       Z.testbit (cs_value false st v) 0 = false) /\
  (forall xfr s,
     tx_buf xfr = None ->
     no_cs_assert ssx
       (new_io s (snd (sx1301_radio_spi_transfer_one spi ssx xfr s))) = true) /\
  (forall xfr s,
     cs_asserts_released ssx
       (new_io s (snd (sx1301_radio_spi_transfer_one spi ssx xfr s))) = true) /\
  (forall enable s,
     io (snd (sx1301_radio_spi_set_cs spi ssx enable s))
     = io s ++ new_io s (snd (sx1301_radio_spi_set_cs spi ssx enable s))) /\
  (forall xfr s,
     io (snd (sx1301_radio_spi_transfer_one spi ssx xfr s))
     = io s ++ new_io s (snd (sx1301_radio_spi_transfer_one spi ssx xfr s))).
Proof.
  split; [reflexivity|].
  split; [intros s; apply (spi_set_cs_disable spi ssx s Hssx)|].
  split.
  { intros s Hp.
    destruct (proj2 (spi_set_cs_disable spi ssx s Hssx) Hp)
      as (st & v & st' & Hio).
    exists st, v, st'. split; [exact Hio | apply cs_value_bit0]. }
  split.
  { intros xfr s Htx.
    apply (transfer_one_cs_asserts_released spi ssx xfr s Hssx). exact Htx. }
  split.
  { intros xfr s. apply (transfer_one_cs_asserts_released spi ssx xfr s Hssx). }
  split.
  - intros enable s. apply spi_set_cs_history.
  - intros xfr s. apply transfer_one_history.
Qed.

(** Radio A on a chip whose chip-select register reads 0xCC: the callback
    with [enable = false] clears bit 0, and a two-byte write pulses it. *)
Lemma sx1301_radio_cs_asserted_only_in_tx_path_witness :
  let s := {| cur_page := 2; priv_cur_page := 0xff;
         controllers := [radio_a; radio_b]; io := [] |} in
  sx1301_radio_spi_set_cs (const_device 0xCC) radio_a true s = (tt, s) /\
  cs_asserts_released radio_a
    (new_io s
       (snd (sx1301_radio_spi_transfer_one (const_device 0xCC) radio_a
               {| tx_buf := Some [0xAA; 0xBB]; rx_buf := None; len := 2 |} s)))
  = true.
Proof.
  cbv zeta.
  pose proof (sx1301_radio_cs_asserted_only_in_tx_path
                (const_device 0xCC) radio_a (or_introl eq_refl))
    as (Hon & _ & _ & _ & Hrel & _).
  split; [apply Hon | apply Hrel].
Defined.

(** ** The outgoing phase *)

(** With the block's page selected, a transfer with outgoing bytes and
    no incoming buffer ends in one of three ways: the address write
    failed and nothing followed; the data write failed and nothing
    followed; or both succeeded and the chip-select register was read and
    written twice, first with bit 0 set and then with bit 0 clear.  In the
    third case the result is 0 whatever the four chip-select transfers
    returned. *)
Lemma transfer_one_outgoing_sequence spi ssx xfr tx s :
  1 <= len xfr <= 3 -> cur_page s = page ssx ->
  tx_buf xfr = Some tx -> rx_buf xfr = None ->
  let r := sx1301_radio_spi_transfer_one spi ssx xfr s in
  let b0 := byte_at tx 0 in
  let b1 := if len xfr >=? 2 then byte_at tx 1 else 0 in
  (exists sa, sa <> 0 /\ fst (fst r) = sa /\
     new_io s (snd r) = [SpiWrite (addr_write_cmd ssx) b0 sa]) \/
  (exists sd, sd <> 0 /\ fst (fst r) = sd /\
     new_io s (snd r) = [SpiWrite (addr_write_cmd ssx) b0 0;
                         SpiWrite (data_write_cmd ssx) b1 sd]) \/
  (exists c1 v1 w1 c2 v2 w2 hi lo,
     fst (fst r) = 0 /\
     Z.testbit hi 0 = true /\ Z.testbit lo 0 = false /\
     new_io s (snd r) = [SpiWrite (addr_write_cmd ssx) b0 0;
                         SpiWrite (data_write_cmd ssx) b1 0;
                         SpiWriteThenRead (cs_read_cmd ssx) c1 v1;
                         SpiWrite (cs_write_cmd ssx) hi w1;
                         SpiWriteThenRead (cs_read_cmd ssx) c2 v2;
                         SpiWrite (cs_write_cmd ssx) lo w2]).
Proof.
  intros Hlen Hp Htx Hrx. cbv zeta.
  pose proof (valid_len_test xfr Hlen) as Hv.
  unfold sx1301_radio_spi_transfer_one. rewrite Hv, bind_run.
  rewrite (sx1301_page_switch_same _ _ _ Hp). cbv beta iota.
  cbn [nonzero Z.eqb negb]. rewrite Htx, Hrx.
  fold (addr_write_cmd ssx). fold (data_write_cmd ssx).
  exec_write.
  - exec_write.
    + exec_set_cs Hp. exec_set_cs Hp.
      right. right.
      eexists _, _, _, _, _, _, _, _. unfold pure. cbn [fst snd].
      split; [reflexivity|].
      split; [apply (cs_value_bit0 true)|].
      split; [apply (cs_value_bit0 false)|].
      new_io_solve. reflexivity.
    + right. left. exists st. unfold pure. cbn [fst snd].
      split; [assumption|]. split; [reflexivity|].
      new_io_solve. reflexivity.
  - left. exists st. unfold pure. cbn [fst snd].
    split; [assumption|]. split; [reflexivity|].
    new_io_solve. reflexivity.
Qed.

(** C6: on a bus where every write to radio A's chip-select register
    fails with -EIO, a two-byte outgoing transfer writes the address and
    data registers, attempts the assert, goes on to the deassert although
    the assert failed, and returns 0 instead of the error. *)
Theorem sx1301_radio_spi_transfer_one_cs_failure_not_reported :
  run (sx1301_radio_spi_transfer_one (write_fails_device 0xA5 (- EIO) 0xCC)
         radio_a {| tx_buf := Some [0xAA; 0xBB]; rx_buf := None; len := 2 |})
      {| cur_page := 2; priv_cur_page := 0xff;
         controllers := [radio_a; radio_b]; io := [] |}
  = ((0, {| tx_buf := Some [0xAA; 0xBB]; rx_buf := None; len := 2 |}),
     {| cur_page := 2; priv_cur_page := 0xff;
        controllers := [radio_a; radio_b];
        io := [SpiWrite 0xA3 0xAA 0; SpiWrite 0xA1 0xBB 0;
               SpiWriteThenRead 37 0 0xCC; SpiWrite 0xA5 0xCD (- EIO);
               SpiWriteThenRead 37 0 0xCC; SpiWrite 0xA5 0xCC (- EIO)] |}).
Proof. vm_compute. reflexivity. Qed.

(** * Further properties of the driver *)

(** ** Register channel *)

Lemma read_cmd_mod reg : Z.land reg 0x7f = reg mod 128.
Proof. change 127 with (Z.ones 7). rewrite Z.land_ones by lia. reflexivity. Qed.

Lemma write_cmd_mod reg : u8 (Z.lor reg (BIT 7)) = reg mod 128 + 128.
Proof.
  assert (H : u8 (Z.lor reg (BIT 7)) = Z.lor (Z.land reg 0x7f) 0x80).
  { apply Z.bits_inj'. intros k Hk.
    rewrite u8_testbit by exact Hk.
    rewrite !Z.lor_spec, Z.land_spec.
    change (BIT 7) with (2 ^ 7). change 128 with (2 ^ 7).
    change 127 with (Z.ones 7).
    rewrite Z.pow2_bits_eqb by lia.
    rewrite Z.testbit_ones_nonneg by lia.
    destruct (Z.eqb_spec 7 k) as [<-|Hne].
    - change (7 <? 8) with true. cbv iota. rewrite !orb_true_r. reflexivity.
    - destruct (Z.ltb_spec k 8), (Z.ltb_spec k 7); try lia;
        rewrite ?orb_false_r, ?andb_true_r, ?andb_false_r; reflexivity. }
  rewrite H, read_cmd_mod.
  symmetry. apply Z.add_nocarry_lor.
  rewrite <- read_cmd_mod. apply Z.bits_inj'. intros k Hk.
  rewrite !Z.land_spec, Z.bits_0.
  change 128 with (2 ^ 7). change 127 with (Z.ones 7).
  rewrite Z.pow2_bits_eqb by lia.
  rewrite Z.testbit_ones_nonneg by lia.
  destruct (Z.eqb_spec 7 k) as [<-|Hne].
  - change (7 <? 7) with false. rewrite andb_false_r. reflexivity.
  - apply andb_false_r.
Qed.

(** X1: whatever [reg] is given, [sx1301_read] sends the single command
    byte [reg mod 128] (bit 7 clear) and [sx1301_write] sends that byte
    plus 128 (bit 7 set) followed by the value: a read and a write of one
    register name the same 7-bit address, and a read can never be taken
    for a write.  Each is one transfer; neither touches the page cache;
    the byte a read delivers is in 0..255 and replaces the caller's
    variable only when the transfer succeeded. *)
Theorem sx1301_read_write_framing (spi : spi_device) (reg val val0 : Z)
    (s : sx1301_state) :
  let a := reg mod 128 in
  let rd := sx1301_read spi reg val0 s in
  let wr := sx1301_write spi reg val s in
  0 <= a < 128 /\
  (exists v, io (snd rd) = io s ++ [SpiWriteThenRead a (fst (fst rd)) v] /\
             0 <= v < 256 /\
             snd (fst rd) = (if fst (fst rd) =? 0 then v else val0)) /\
  io (snd wr) = io s ++ [SpiWrite (a + 128) val (fst wr)] /\
  cur_page (snd rd) = cur_page s /\ cur_page (snd wr) = cur_page s.
Proof.
  cbv zeta. rewrite sx1301_read_run, sx1301_write_run. cbv zeta. cbn [fst snd].
  rewrite read_cmd_mod, write_cmd_mod.
  split; [apply Z.mod_pos_bound; lia|].
  split.
  - exists (u8 (snd (read_resp spi (io s) (reg mod 128)))).
    split; [reflexivity|]. split; [|reflexivity].
    unfold u8. apply Z.mod_pos_bound. lia.
  - repeat split.
Qed.

(** X12: a page switch never resets the chip: the only write it can add
    goes to register 0 and carries [target mod 4], a value in 0..3 with
    bit 7 clear; [sx1301_soft_reset] is one write to register 0 with bit 7
    set and the page bits clear. *)
Theorem sx1301_page_switch_never_resets (spi : spi_device) (target : Z)
    (s : sx1301_state) :
  (forall b0 v st,
     In (SpiWrite b0 v st) (new_io s (snd (sx1301_page_switch spi target s))) ->
     b0 = 0x80 /\ v = target mod 4 /\ 0 <= v <= 3 /\ Z.testbit v 7 = false) /\
  (exists v st,
     new_io s (snd (sx1301_soft_reset spi s)) = [SpiWrite 0x80 v st] /\
     Z.testbit v 7 = true /\ v mod 4 = 0).
Proof.
  split.
  - intros b0 v st Hin.
    destruct (Z.eq_dec (cur_page s) target) as [Hp|Hp].
    + rewrite (sx1301_page_switch_same spi _ s Hp) in Hin. cbn [snd] in Hin.
      rewrite new_io_same in Hin. destruct Hin.
    + rewrite (sx1301_page_switch_other spi _ s Hp) in Hin.
      cbv zeta in Hin. cbn [snd] in Hin.
      erewrite new_io_app in Hin
        by (match goal with |- context [if ?b then _ else _] => destruct b end;
            reflexivity).
      destruct Hin as [Heq|[]]. injection Heq as <- <- <-.
      assert (Hm : Z.land target 3 = target mod 4).
      { change 3 with (Z.ones 2). rewrite Z.land_ones by lia. reflexivity. }
      rewrite Hm. split; [reflexivity|]. split; [reflexivity|].
      pose proof (Z.mod_pos_bound target 4 ltac:(lia)).
      split; [lia|]. change 4 with (2 ^ 2).
      apply Z.mod_pow2_bits_high. lia.
  - unfold sx1301_soft_reset. rewrite sx1301_write_run. cbn [snd].
    eexists _, _. split; [apply new_io_app; reflexivity|].
    split; reflexivity.
Qed.

(** ** Chip select *)

(** X2: with the block's page selected, [sx1301_radio_set_cs] returns 0,
    leaves the page cache and the controllers alone, and adds exactly a
    read of the chip-select register and a write to it.  The byte written
    is in 0..255 and has bit 0 equal to [enable]; when the read succeeded
    it agrees with the byte read on every other bit, and when the read
    failed it is 1 or 0. *)
Theorem sx1301_radio_set_cs_only_bit0 (spi : spi_device) (ssx : spi_sx1301)
    (enable : bool) (s : sx1301_state) (Hp : cur_page s = page ssx) :
  let r := sx1301_radio_set_cs spi ssx enable s in
  exists st v w st',
    fst r = 0 /\
    io (snd r) = io s ++ [SpiWriteThenRead (cs_read_cmd ssx) st v;
                          SpiWrite (cs_write_cmd ssx) w st'] /\
    cur_page (snd r) = cur_page s /\
    controllers (snd r) = controllers s /\
    0 <= w < 256 /\
    Z.testbit w 0 = enable /\
    (st = 0 -> only_mask_changed 1 v w) /\
    (st <> 0 -> w = if enable then 1 else 0).
Proof.
  cbv zeta. rewrite (sx1301_radio_set_cs_on_page spi ssx enable s Hp).
  cbv zeta. cbn [fst snd].
  destruct (read_resp spi (io s) (cs_read_cmd ssx)) as [st rx]. cbn [fst snd].
  eexists st, (u8 rx), _, _.
  split; [reflexivity|]. split; [io_norm; reflexivity|].
  split; [reflexivity|]. split; [reflexivity|].
  split.
  { unfold cs_value. destruct enable; unfold u8; apply Z.mod_pos_bound; lia. }
  split; [apply cs_value_bit0|].
  split.
  - intros ->. unfold cs_value. cbn [nonzero Z.eqb negb].
    destruct enable.
    + apply (set_only_mask_changed 1 rx).
    + apply (clear_only_mask_changed 1 rx).
  - intros Hst. apply cs_value_read_failed. exact Hst.
Qed.

(** Radio A, chip-select register reading 0xCC: selecting writes 0xCD. *)
Lemma sx1301_radio_set_cs_only_bit0_witness :
  let s := {| cur_page := 2; priv_cur_page := 0xff;
         controllers := [radio_a; radio_b]; io := [] |} in
  exists st v w st',
    io (snd (sx1301_radio_set_cs (const_device 0xCC) radio_a true s))
    = [SpiWriteThenRead 37 st v; SpiWrite 0xA5 w st'] /\
    Z.testbit w 0 = true.
Proof.
  cbv zeta.
  destruct (sx1301_radio_set_cs_only_bit0 (const_device 0xCC) radio_a true
              {| cur_page := 2; priv_cur_page := 0xff;
                 controllers := [radio_a; radio_b]; io := [] |}
              eq_refl)
    as (st & v & w & st' & _ & Hio & _ & _ & _ & Hbit & _).
  exists st, v, w, st'. split; [exact Hio | exact Hbit].
Defined.

(** ** Bring-up, run by run *)

(** Every way the probe can end, once the reset GPIO is known and the
    byte of the [net_device] is known to be 2 or not; [leaf] closes
    each. *)
Ltac probe_paths leaf :=
  do 5 step_unit;
  exec_read; [|leaf];
  match goal with
  | |- context [negb (?v =? 103)] =>
      destruct (v =? 103) eqn:Hver; cbn [negb]; [|leaf]
  end;
  exec_flag; [|leaf];
  do 2 step_unit;
  exec_write; [|leaf];
  unfold sx1301_soft_reset;
  exec_write; [|leaf];
  exec_read; [|leaf]; exec_write; [|leaf];
  exec_read; [|leaf]; exec_write; [|leaf];
  exec_page_switch leaf;
  exec_read; [|leaf]; exec_write; [|leaf]; step_unit;
  exec_read; [|leaf]; exec_write; [|leaf]; step_unit;
  exec_read; [|leaf]; exec_write; [|leaf];
  exec_flag; [|leaf];
  exec_register; [|leaf];
  step_unit;
  exec_flag; [|step_unit; leaf];
  exec_register; [|step_unit; leaf];
  step_unit;
  leaf.

Ltac stops_leaf :=
  cbv beta; unfold pure; cbn [fst snd];
  new_io_solve;
  split; [reflexivity|];
  split;
  [ let e := fresh "e" in
    let He := fresh "He" in
    let Hst := fresh "Hst" in
    intros e He Hst; cbn [last] in He; injection He as <-;
    cbn [status_of] in Hst |- *;
    first [reflexivity | contradiction]
  | let H0 := fresh "H0" in
    intros H0;
    first [ reflexivity | contradiction
          | discriminate H0 | (vm_compute in H0; discriminate H0) ] ].

(** X3: the probe never retries and never goes on after a failed
    transfer: in every run all SPI transfers but the last succeeded, a
    failed last transfer gives the probe its return value, and a probe
    that returns 0 had no failed transfer at all. *)
Theorem sx1301_probe_stops_at_first_failure (spi : spi_device) (pf : platform)
    (s : sx1301_state) :
  let r := sx1301_probe spi pf s in
  let evs := new_io s (snd r) in
  all_succeeded (removelast evs) = true /\
  (forall e, last evs = Some e -> status_of e <> 0 -> fst r = status_of e) /\
  (fst r = 0 -> all_succeeded evs = true).
Proof.
  cbv zeta.
  set (P := fun r : Z * sx1301_state =>
              all_succeeded (removelast (new_io s (snd r))) = true /\
              (forall e, last (new_io s (snd r)) = Some e ->
                         status_of e <> 0 -> fst r = status_of e) /\
              (fst r = 0 -> all_succeeded (new_io s (snd r)) = true)).
  change (P (sx1301_probe spi pf s)).
  unfold sx1301_probe.
  destruct (reset_gpio pf) as [e|rst].
  { subst P. cbv beta. unfold pure. cbn [fst snd]. rewrite new_io_same.
    split; [reflexivity|]. split; [discriminate | reflexivity]. }
  subst P.
  destruct (Z.eq_dec (u8 (netdev_page_byte pf)) 2) as [Hc|Hc];
    destruct rst; probe_paths stops_leaf.
Qed.

(** X9: when the reset GPIO cannot be had (an error pointer), the probe
    returns that negative errno and does nothing at all.  Otherwise it
    always starts with the reset pulse (line high, 100 ms, line low,
    100 ms; the two waits alone when the board has no reset line), the
    SPI setup with 8 bits per word and the read of the version register,
    before anything else. *)
Theorem sx1301_probe_begins_with_reset (spi : spi_device) (pf : platform)
    (s : sx1301_state) :
  let r := sx1301_probe spi pf s in
  (forall e, reset_gpio pf = inl e -> r = (Z.neg e, s)) /\
  (forall rst, reset_gpio pf = inr rst ->
     exists st v rest,
       new_io s (snd r)
       = reset_pulse rst
         ++ [SpiSetup 8; SpiWriteThenRead REG_VERSION st v] ++ rest).
Proof.
  cbv zeta.
  set (P := fun r : Z * sx1301_state =>
     (forall e, reset_gpio pf = inl e -> r = (Z.neg e, s)) /\
     (forall rst, reset_gpio pf = inr rst ->
     exists st v rest,
       new_io s (snd r)
       = reset_pulse rst
         ++ [SpiSetup 8; SpiWriteThenRead REG_VERSION st v] ++ rest)).
  change (P (sx1301_probe spi pf s)).
  unfold sx1301_probe.
  destruct (reset_gpio pf) as [e|rst] eqn:Hgpio.
  { subst P. cbv beta. split; [intros e' [= <-]; reflexivity | discriminate]. }
  subst P.
  destruct (Z.eq_dec (u8 (netdev_page_byte pf)) 2) as [Hc|Hc];
    destruct rst;
    probe_paths ltac:(cbv beta; unfold pure; cbn [fst snd]; new_io_solve;
                      split; [discriminate|];
                      intros rst' [= <-];
                      eexists _, _, _; cbn [reset_pulse app]; reflexivity).
Qed.

(** Where the probe stores: the byte [sx1301_page_switch] consults ends
    as it was, as the byte of the [net_device], or as 2 (after the switch
    to page 2), so the sentinel is never put there; the [cur_page] of the
    private data ends as it was or as the sentinel. *)
Lemma sx1301_probe_page_cache spi pf s :
  let r := sx1301_probe spi pf s in
  (cur_page (snd r) = cur_page s \/
   cur_page (snd r) = u8 (netdev_page_byte pf) \/
   cur_page (snd r) = 2) /\
  (priv_cur_page (snd r) = priv_cur_page s \/ priv_cur_page (snd r) = 0xff).
Proof.
  cbv zeta.
  set (P := fun r : Z * sx1301_state =>
    (cur_page (snd r) = cur_page s \/
     cur_page (snd r) = u8 (netdev_page_byte pf) \/
     cur_page (snd r) = 2) /\
    (priv_cur_page (snd r) = priv_cur_page s \/
     priv_cur_page (snd r) = 0xff)).
  change (P (sx1301_probe spi pf s)).
  unfold sx1301_probe.
  destruct (reset_gpio pf) as [e|rst].
  { subst P. cbv beta. unfold pure. cbn [snd]. split; left; reflexivity. }
  subst P.
  destruct (Z.eq_dec (u8 (netdev_page_byte pf)) 2) as [Hc|Hc];
    destruct rst;
    probe_paths ltac:(cbv beta; unfold pure; cbn [snd]; state_simpl;
                      split; auto).
Qed.

Ltac success_leaf :=
  cbv beta; unfold pure; cbn [fst snd];
  let H0 := fresh "H0" in
  intros H0;
  first
    [ contradiction
    | discriminate H0
    | (vm_compute in H0; discriminate H0)
    | eexists (Build_bringup_reads _ _ _ _ _ _);
      split; [io_norm; cbn; reflexivity|];
      split; [apply Z.eqb_eq; assumption|];
      repeat split; first [reflexivity | assumption] ].

(** X4: a probe that returns 0 has done the whole bring-up, in order and
    with every transfer successful: reset pulse, setup, version read
    giving 103, page 0 write, soft reset, the two clears at addresses 16
    and 17, the switch to page 2, the enable of both radios, 500 ms, the
    radio reset, 5 ms and its release.  The switch to page 2 is a
    page-select write exactly when the byte of the [net_device] that the
    page cache reads did not hold 2; when it held 2 the switch does no
    I/O.  The probe leaves page 2 cached and the two controllers
    registered on the blocks at 33 and 38, and every allocation and
    registration had succeeded. *)
Theorem sx1301_probe_success (spi : spi_device) (pf : platform)
    (s : sx1301_state) (Hok : fst (sx1301_probe spi pf s) = 0) :
  let r := sx1301_probe spi pf s in
  exists rd,
    io (snd r)
    = io s ++ bringup_io (has_reset_gpio pf) (page_select_needed pf) rd /\
    u8 (rd_version rd) = 103 /\
    cur_page (snd r) = 2 /\
    controllers (snd r) = [radio_a; radio_b] /\
    alloc_loradev pf = true /\
    alloc_radio_a pf = true /\ register_radio_a pf = 0 /\
    alloc_radio_b pf = true /\ register_radio_b pf = 0.
Proof.
  cbv zeta. revert Hok.
  set (P := fun r : Z * sx1301_state =>
    fst r = 0 ->
    exists rd,
    io (snd r)
    = io s ++ bringup_io (has_reset_gpio pf) (page_select_needed pf) rd /\
    u8 (rd_version rd) = 103 /\
    cur_page (snd r) = 2 /\
    controllers (snd r) = [radio_a; radio_b] /\
    alloc_loradev pf = true /\
    alloc_radio_a pf = true /\ register_radio_a pf = 0 /\
    alloc_radio_b pf = true /\ register_radio_b pf = 0).
  change (P (sx1301_probe spi pf s)).
  unfold sx1301_probe. subst P. unfold has_reset_gpio, page_select_needed.
  destruct (reset_gpio pf) as [e|rst].
  { cbv beta. unfold pure. cbn [fst]. discriminate. }
  destruct (Z.eqb_spec (u8 (netdev_page_byte pf)) 2) as [Hc|Hc]; cbn [negb];
    destruct rst; probe_paths success_leaf.
  Unshelve. all: exact 0.
Qed.

(** A chip of version 103 whose other registers hold 0xff, on a board
    with a reset line. *)
Lemma sx1301_probe_success_witness :
  cur_page (snd (sx1301_probe (regfile_device 103 0xff) board init_state)) = 2 /\
  controllers (snd (sx1301_probe (regfile_device 103 0xff) board init_state))
  = [radio_a; radio_b].
Proof.
  destruct (sx1301_probe_success (regfile_device 103 0xff) board init_state
              eq_refl)
    as (rd & _ & _ & Hpage & Hctrl & _).
  split; [exact Hpage | exact Hctrl].
Defined.

Ltac ok_read Hr :=
  rewrite bind_run, sx1301_read_run; cbv beta iota zeta; rewrite Hr;
  change (nonzero 0) with false; change (0 =? 0) with true; cbv beta iota.

Ltac ok_write Hw :=
  rewrite bind_run, sx1301_write_run; cbv beta iota; rewrite Hw;
  change (nonzero 0) with false; cbv beta iota.

Ltac forget_read :=
  match goal with
  | |- context [u8 (snd (read_resp ?d ?h ?a))] =>
      generalize (u8 (snd (read_resp d h a))); intro
  end.

(** X5: on a bus where every transfer succeeds and the version register
    reads 103, and a board on which the reset GPIO lookup, the
    allocations and the two registrations succeed, the probe returns 0. *)
Theorem sx1301_probe_healthy_chip (spi : spi_device) (pf : platform)
    (s : sx1301_state) (rst : bool)
    (Hrd : forall h a, fst (read_resp spi h a) = 0)
    (Hwr : forall h b0 b1, write_resp spi h b0 b1 = 0)
    (Hver : forall h, u8 (snd (read_resp spi h REG_VERSION)) = 103)
    (Hgpio : reset_gpio pf = inr rst)
    (Hdev : alloc_loradev pf = true)
    (Ha : alloc_radio_a pf = true) (Hra : register_radio_a pf = 0)
    (Hb : alloc_radio_b pf = true) (Hrb : register_radio_b pf = 0) :
  fst (sx1301_probe spi pf s) = 0.
Proof.
  unfold sx1301_probe. rewrite Hgpio, Hdev, Ha, Hra, Hb, Hrb.
  do 5 step_unit.
  ok_read Hrd. change (Z.land REG_VERSION 127) with REG_VERSION.
  rewrite Hver. change (negb (103 =? 103)) with false. cbn [negb]. cbv beta iota.
  do 2 step_unit.
  ok_write Hwr. unfold sx1301_soft_reset. ok_write Hwr.
  ok_read Hrd. forget_read. ok_write Hwr.
  ok_read Hrd. forget_read. ok_write Hwr.
  rewrite bind_run.
  destruct (Z.eq_dec (u8 (netdev_page_byte pf)) 2) as [Hc|Hc];
    [ rewrite sx1301_page_switch_same by (state_simpl; exact Hc)
    | rewrite sx1301_page_switch_other by (state_simpl; exact Hc);
      cbv beta iota zeta; rewrite Hwr; change (0 =? 0) with true ];
    cbv beta iota; change (nonzero 0) with false; cbv beta iota.
  all: ok_read Hrd; forget_read; ok_write Hwr; step_unit.
  all: ok_read Hrd; forget_read; ok_write Hwr; step_unit.
  all: ok_read Hrd; forget_read; ok_write Hwr.
  all: change (nonzero 0) with false; cbn [negb]; cbv beta iota.
  all: do 2 step_unit; reflexivity.
Qed.

(** The register-file chip of version 103 on the board with a reset
    line. *)
Lemma sx1301_probe_healthy_chip_witness :
  fst (sx1301_probe (regfile_device 103 0) board init_state) = 0.
Proof.
  apply (sx1301_probe_healthy_chip (regfile_device 103 0) board init_state true).
  - intros h a. reflexivity.
  - intros h b0 b1. reflexivity.
  - intros h. reflexivity.
  - reflexivity.
  - reflexivity.
  - reflexivity.
  - reflexivity.
  - reflexivity.
  - reflexivity.
Defined.

(** ** The controllers and the page *)

Ltac block_solve :=
  unfold addr_write_cmd, data_write_cmd, rb_read_cmd;
  repeat (progress (cbn [forallb block_reg orb andb];
                    rewrite ?Z.eqb_refl, ?orb_true_r));
  reflexivity.

Ltac discipline_leaf Hp :=
  unfold page_discipline, pure; cbn [fst snd];
  new_io_solve;
  split; [reflexivity|];
  split; [io_norm; rewrite ?app_nil_r; reflexivity|];
  first
    [ left; split; reflexivity
    | right; left; split; [exact Hp|];
      split; [state_simpl; first [exact Hp | reflexivity]|]; block_solve
    | right; right; left; split; [exact Hp|]; split; [reflexivity|];
      eexists; split; [eassumption | reflexivity]
    | right; right; right; split; [exact Hp|]; split; [reflexivity|];
      eexists; split; [reflexivity | block_solve] ].

Lemma transfer_one_page_discipline spi ssx xfr s :
  page_discipline ssx s (snd (sx1301_radio_spi_transfer_one spi ssx xfr s)).
Proof.
  set (P := fun r : Z * spi_transfer * sx1301_state =>
              page_discipline ssx s (snd r)).
  change (P (sx1301_radio_spi_transfer_one spi ssx xfr s)).
  destruct ((len xfr =? 0) || (len xfr >? 3)) eqn:Hv.
  { unfold sx1301_radio_spi_transfer_one. rewrite Hv. subst P. cbv beta.
    unfold page_discipline, pure. cbn [snd]. rewrite new_io_same.
    split; [reflexivity|]. split; [now rewrite app_nil_r|].
    left. split; reflexivity. }
  transfer_paths.
  all: destruct (tx_buf xfr) as [tx|] eqn:Htx.
  all: try (exec_write; [exec_write; [exec_set_cs Hp; exec_set_cs Hp|]|]).
  all: destruct (rx_buf xfr) as [rxb|] eqn:Hrx.
  all: try exec_read.
  all: subst P; cbv beta.
  all: discipline_leaf Hp.
Qed.

Lemma spi_set_cs_page_discipline spi ssx enable s :
  page_discipline ssx s (snd (sx1301_radio_spi_set_cs spi ssx enable s)).
Proof.
  unfold sx1301_radio_spi_set_cs. destruct enable.
  { unfold page_discipline, pure. cbn [snd]. rewrite new_io_same.
    split; [reflexivity|]. split; [now rewrite app_nil_r|].
    left. split; reflexivity. }
  rewrite bind_run, sx1301_radio_set_cs_run. cbv zeta.
  destruct (Z.eq_dec (cur_page s) (page ssx)) as [Hp|Hp].
  - rewrite (sx1301_page_switch_same _ _ _ Hp).
    cbn [fst snd nonzero Z.eqb negb]. gen_read. gen_write.
    discipline_leaf Hp.
  - rewrite (sx1301_page_switch_other _ _ _ Hp). cbv zeta. cbn [fst snd].
    gen_write. change (nonzero st) with (negb (st =? 0)).
    destruct (Z.eqb_spec st 0); [subst st|]; cbn [negb].
    + gen_read. gen_write. discipline_leaf Hp.
    + discipline_leaf Hp.
Qed.

Lemma run_op_page_discipline spi op s :
  page_discipline (op_ssx op) s (run_op spi op s).
Proof.
  destruct op as [ssx xfr|ssx enable]; cbn [op_ssx run_op].
  - apply transfer_one_page_discipline.
  - apply spi_set_cs_page_discipline.
Qed.

(** X8: a controller touches its block only with the block's page
    selected.  Every transfer and every [set_cs] callback on the
    controller of block [ssx], from any state, leaves the controllers as
    they were, only adds to the history, and goes one of four ways: no
    I/O at all (cache untouched); the page was already cached: it stays
    cached and every transfer is on one of the block's four registers;
    the page was not cached and the page-select write failed: that write
    is the only I/O and the cache is untouched; the page was not cached
    and the page-select write succeeded: the page is now cached and every
    later transfer is on one of the block's registers. *)
Theorem sx1301_radio_block_needs_its_page (spi : spi_device)
    (ssx : spi_sx1301) :
  (forall xfr s,
     page_discipline ssx s
       (snd (sx1301_radio_spi_transfer_one spi ssx xfr s))) /\
  (forall enable s,
     page_discipline ssx s (snd (sx1301_radio_spi_set_cs spi ssx enable s))).
Proof.
  split.
  - intros xfr s. apply transfer_one_page_discipline.
  - intros enable s. apply spi_set_cs_page_discipline.
Qed.

Lemma block_reg_outside e :
  (block_reg radio_a e = true -> block_access radio_b e = false) /\
  (block_reg radio_b e = true -> block_access radio_a e = false).
Proof.
  destruct e as [a st v|b0 b1 st| | |];
    cbn [block_reg block_access reg_of]; try (split; discriminate).
  - change (cs_read_cmd radio_a) with 37. change (rb_read_cmd radio_a) with 34.
    change (cs_read_cmd radio_b) with 42. change (rb_read_cmd radio_b) with 39.
    rewrite !orb_true_iff, !Z.eqb_eq.
    split; intros [-> | ->]; reflexivity.
  - change (addr_write_cmd radio_a) with 163.
    change (data_write_cmd radio_a) with 161.
    change (cs_write_cmd radio_a) with 165.
    change (addr_write_cmd radio_b) with 168.
    change (data_write_cmd radio_b) with 166.
    change (cs_write_cmd radio_b) with 170.
    rewrite !orb_true_iff, !Z.eqb_eq.
    split; intros [[-> | ->] | ->]; reflexivity.
Qed.

(** X6: the two controllers never reach into each other's block: no
    transfer and no [set_cs] callback on radio A, from any state and on
    any bus, reads or writes a register of radio B's window, addresses 38
    to 42 (its data, data-readback, address and chip-select registers and
    the address between), whether the access succeeds or not; and none on
    radio B reads or writes a register of radio A's window, addresses 33
    to 37. *)
Theorem sx1301_radio_blocks_isolated (spi : spi_device) (op : radio_op)
    (other : spi_sx1301) (s : sx1301_state)
    (Hpair : (op_ssx op = radio_a /\ other = radio_b) \/
             (op_ssx op = radio_b /\ other = radio_a)) :
  forallb (fun e => negb (block_access other e)) (new_io s (run_op spi op s))
  = true.
Proof.
  pose proof (run_op_page_discipline spi op s) as (_ & _ & Hcases).
  assert (Hrest : forall evs, forallb (block_reg (op_ssx op)) evs = true ->
            forallb (fun e => negb (block_access other e)) evs = true).
  { intros evs H. apply forallb_forall. intros e He.
    pose proof (proj1 (forallb_forall _ _) H e He) as Hb.
    destruct (block_reg_outside e) as [Hab Hba].
    destruct Hpair as [[Ha ->]|[Ha ->]]; rewrite Ha in Hb.
    - rewrite (Hab Hb). reflexivity.
    - rewrite (Hba Hb). reflexivity. }
  assert (Hsel : forall st, block_access other
                   (SpiWrite 0x80 (Z.land (page (op_ssx op)) 0x3) st) = false).
  { intros st. destruct Hpair as [[_ ->]|[_ ->]]; reflexivity. }
  destruct Hcases as [[-> _] | [(_ & _ & Hb) | [(_ & _ & st & _ & ->)
                                             | (_ & _ & rest & -> & Hb)]]].
  - reflexivity.
  - apply Hrest. exact Hb.
  - cbn [forallb]. rewrite Hsel. reflexivity.
  - cbn [forallb]. rewrite Hsel, (Hrest _ Hb). reflexivity.
Qed.

(** A three-byte transfer on radio A, starting with another page cached:
    nothing in it is on a register of radio B's window. *)
Lemma sx1301_radio_blocks_isolated_witness :
  forallb (fun e => negb (block_access radio_b e))
    (new_io init_state
       (run_op (const_device 0xCC)
          (OpTransfer radio_a
             {| tx_buf := Some [0xAA; 0xBB; 0]; rx_buf := Some [0; 0; 0];
                len := 3 |})
          init_state))
  = true.
Proof.
  exact (sx1301_radio_blocks_isolated (const_device 0xCC)
           (OpTransfer radio_a
              {| tx_buf := Some [0xAA; 0xBB; 0]; rx_buf := Some [0; 0; 0];
                 len := 3 |})
           radio_b init_state (or_introl (conj eq_refl eq_refl))).
Defined.

Lemma new_io_trans s s1 s2 :
  io s1 = io s ++ new_io s s1 -> io s2 = io s1 ++ new_io s1 s2 ->
  new_io s s2 = new_io s s1 ++ new_io s1 s2 /\
  io s2 = io s ++ new_io s s2.
Proof.
  intros H1 H2.
  assert (H : io s2 = io s ++ (new_io s s1 ++ new_io s1 s2)).
  { rewrite H2. rewrite H1 at 1. now rewrite <- app_assoc. }
  rewrite (new_io_app _ _ _ H). split; [reflexivity | exact H].
Qed.

Lemma block_reg_radio ssx e :
  ssx = radio_a \/ ssx = radio_b -> block_reg ssx e = true -> radio_reg e = true.
Proof.
  unfold radio_reg. intros [->| ->] H; rewrite H; [reflexivity|apply orb_true_r].
Qed.

Lemma run_ops_on_page_2 spi ops : forall s,
  cur_page s = 2 ->
  Forall (fun op => op_ssx op = radio_a \/ op_ssx op = radio_b) ops ->
  cur_page (run_ops spi ops s) = 2 /\
  controllers (run_ops spi ops s) = controllers s /\
  io (run_ops spi ops s) = io s ++ new_io s (run_ops spi ops s) /\
  forallb radio_reg (new_io s (run_ops spi ops s)) = true.
Proof.
  induction ops as [|op ops IH]; intros s Hs Hops; cbn [run_ops].
  - rewrite new_io_same, app_nil_r. repeat split. exact Hs.
  - inversion Hops as [|? ? Hop Hrest]; subst.
    pose proof (run_op_page_discipline spi op s) as (Hc & Hio & Hcases).
    assert (Hpage : page (op_ssx op) = 2)
      by (destruct Hop as [-> | ->]; reflexivity).
    assert (H1 : cur_page (run_op spi op s) = 2 /\
                 forallb radio_reg (new_io s (run_op spi op s)) = true).
    { destruct Hcases as [[He Hp] | [(_ & Hp & Hb) | [(Hne & _) | (Hne & _)]]].
      - rewrite He, Hp. split; [exact Hs | reflexivity].
      - split; [congruence|].
        apply forallb_forall. intros e He.
        apply (block_reg_radio _ _ Hop).
        exact (proj1 (forallb_forall _ _) Hb e He).
      - exfalso. apply Hne. congruence.
      - exfalso. apply Hne. congruence. }
    destruct H1 as [Hp1 Hb1].
    destruct (IH (run_op spi op s) Hp1 Hrest) as (Hp2 & Hc2 & Hio2 & Hb2).
    destruct (new_io_trans _ _ _ Hio Hio2) as [Hsplit Hgrow].
    split; [exact Hp2|]. split; [congruence|]. split; [exact Hgrow|].
    rewrite Hsplit, forallb_app, Hb1, Hb2. reflexivity.
Qed.

(** X7: once the probe has returned 0, the page never moves again:
    whatever transfers and [set_cs] callbacks the SPI core then runs on
    the controllers the probe registered, in whatever order and whatever
    the bus answers, page 2 stays cached, the controllers stay
    registered, every transfer on the bus is on a register of one of the
    two radio blocks, and register 0 (page select and soft reset) is
    never written. *)
Theorem sx1301_radio_ops_never_switch_page (spi : spi_device)
    (pf : platform) (s0 : sx1301_state) (ops : list radio_op)
    (Hok : fst (sx1301_probe spi pf s0) = 0)
    (Hops : Forall (fun op => In (op_ssx op)
                                 (controllers (snd (sx1301_probe spi pf s0))))
                   ops) :
  let s := snd (sx1301_probe spi pf s0) in
  let s' := run_ops spi ops s in
  cur_page s' = 2 /\
  controllers s' = [radio_a; radio_b] /\
  io s' = io s ++ new_io s s' /\
  forallb radio_reg (new_io s s') = true /\
  (forall v st, ~ In (SpiWrite 0x80 v st) (new_io s s')).
Proof.
  cbv zeta.
  destruct (sx1301_probe_io spi pf s0) as (rd & _ & _ & Hfull).
  destruct (Hfull Hok) as (_ & _ & Hpage & Hctrl).
  rewrite Hctrl in Hops.
  assert (Hops' : Forall (fun op => op_ssx op = radio_a \/ op_ssx op = radio_b)
                    ops).
  { eapply Forall_impl; [exact Hops|]. cbn. intros op [H|[H|[]]]; auto. }
  destruct (run_ops_on_page_2 spi ops _ Hpage Hops') as (Hp & Hc & Hio & Hb).
  split; [exact Hp|]. split; [congruence|]. split; [exact Hio|].
  split; [exact Hb|].
  intros v st Hin.
  pose proof (proj1 (forallb_forall _ _) Hb _ Hin) as H.
  vm_compute in H. discriminate H.
Qed.

(** After a bring-up of the register-file chip: a deselect on radio A, a
    write to radio A and a read from radio B. *)
Lemma sx1301_radio_ops_never_switch_page_witness :
  let s := snd (sx1301_probe (regfile_device 103 0) board init_state) in
  let ops := [OpSetCs radio_a false;
              OpTransfer radio_a
                {| tx_buf := Some [0xAA; 0xBB]; rx_buf := None; len := 2 |};
              OpTransfer radio_b
                {| tx_buf := None; rx_buf := Some [0]; len := 1 |}] in
  cur_page (run_ops (regfile_device 103 0) ops s) = 2 /\
  forallb radio_reg (new_io s (run_ops (regfile_device 103 0) ops s)) = true.
Proof.
  cbv zeta.
  pose proof (sx1301_radio_ops_never_switch_page
                (regfile_device 103 0) board init_state
                [OpSetCs radio_a false;
                 OpTransfer radio_a
                   {| tx_buf := Some [0xAA; 0xBB]; rx_buf := None; len := 2 |};
                 OpTransfer radio_b
                   {| tx_buf := None; rx_buf := Some [0]; len := 1 |}]
                eq_refl
                ltac:(repeat (constructor;
                              [first [left; reflexivity
                                     | right; left; reflexivity]|]);
                      constructor))
    as (Hp & _ & _ & Hb & _).
  split; [exact Hp | exact Hb].
Defined.

(** ** What a transfer sends and what it leaves alone *)

Ltac pair_write :=
  rewrite !bind_run, !sx1301_write_run; cbv beta iota;
  match goal with
  | |- context [write_resp ?d ?h ?a ?b] =>
      let st := fresh "st" in
      generalize (write_resp d h a b); intro st; case_status st
  end.

Ltac pair_read :=
  rewrite !bind_run, !sx1301_read_run; cbv beta iota zeta;
  match goal with
  | |- context [read_resp ?d ?h ?a] =>
      let st := fresh "st" in
      let rx := fresh "rx" in
      destruct (read_resp d h a) as [st rx]; cbn [fst snd]; case_status st
  end.

Ltac pair_set_cs Hp :=
  rewrite !bind_run, !sx1301_radio_set_cs_on_page
    by (state_simpl; first [exact Hp | reflexivity]);
  cbv beta iota zeta; cbn [nonzero Z.eqb negb];
  gen_read; gen_write.

(** X10: a transfer sends at most two of its outgoing bytes.  Two
    transfers of the same length and with the same incoming buffer whose
    outgoing buffers agree on byte 0, and on byte 1 when the length is at
    least 2, run identically from the same state on the same bus: same
    status, same resulting state and I/O, same incoming buffer.  The third
    byte of a three-byte transfer is never looked at. *)
Theorem sx1301_radio_spi_transfer_one_sends_two_bytes (spi : spi_device)
    (ssx : spi_sx1301) (tx1 tx2 : list Z) (rxo : option (list Z)) (n : Z)
    (s : sx1301_state)
    (H0 : byte_at tx1 0 = byte_at tx2 0)
    (H1 : 2 <= n -> byte_at tx1 1 = byte_at tx2 1) :
  let r1 := sx1301_radio_spi_transfer_one spi ssx
              {| tx_buf := Some tx1; rx_buf := rxo; len := n |} s in
  let r2 := sx1301_radio_spi_transfer_one spi ssx
              {| tx_buf := Some tx2; rx_buf := rxo; len := n |} s in
  fst (fst r1) = fst (fst r2) /\
  rx_buf (snd (fst r1)) = rx_buf (snd (fst r2)) /\
  snd r1 = snd r2.
Proof.
  cbv zeta.
  set (P := fun r1 r2 : Z * spi_transfer * sx1301_state =>
              fst (fst r1) = fst (fst r2) /\
              rx_buf (snd (fst r1)) = rx_buf (snd (fst r2)) /\
              snd r1 = snd r2).
  change (P (sx1301_radio_spi_transfer_one spi ssx
               {| tx_buf := Some tx1; rx_buf := rxo; len := n |} s)
            (sx1301_radio_spi_transfer_one spi ssx
               {| tx_buf := Some tx2; rx_buf := rxo; len := n |} s)).
  unfold sx1301_radio_spi_transfer_one. cbn [tx_buf rx_buf len].
  rewrite H0.
  assert (Hd : (if n >=? 2 then byte_at tx1 1 else 0)
               = (if n >=? 2 then byte_at tx2 1 else 0)).
  { destruct (n >=? 2) eqn:E; [|reflexivity]. apply H1.
    rewrite Z.geb_leb in E. apply Z.leb_le in E. exact E. }
  rewrite Hd. clear H0 H1 Hd.
  destruct ((n =? 0) || (n >? 3)).
  { subst P. cbv beta. repeat split. }
  rewrite !bind_run.
  destruct (Z.eq_dec (cur_page s) (page ssx)) as [Hp|Hp].
  - rewrite (sx1301_page_switch_same spi _ s Hp). cbv beta iota.
    cbn [nonzero Z.eqb negb].
    pair_write; [|subst P; cbv beta; repeat split].
    pair_write; [|subst P; cbv beta; repeat split].
    pair_set_cs Hp. pair_set_cs Hp.
    destruct rxo as [rxb|].
    + pair_read; subst P; cbv beta; repeat split.
    + subst P; cbv beta; repeat split.
  - rewrite (sx1301_page_switch_other spi _ s Hp). cbv zeta.
    gen_write. case_status st; [|subst P; cbv beta; repeat split].
    pair_write; [|subst P; cbv beta; repeat split].
    pair_write; [|subst P; cbv beta; repeat split].
    pair_set_cs Hp. pair_set_cs Hp.
    destruct rxo as [rxb|].
    + pair_read; subst P; cbv beta; repeat split.
    + subst P; cbv beta; repeat split.
Qed.

(** Two three-byte transfers on radio A that differ in the third
    outgoing byte only. *)
Lemma sx1301_radio_spi_transfer_one_sends_two_bytes_witness :
  snd (sx1301_radio_spi_transfer_one (const_device 0xCC) radio_a
         {| tx_buf := Some [0xAA; 0xBB; 0x11]; rx_buf := None; len := 3 |}
         init_state)
  = snd (sx1301_radio_spi_transfer_one (const_device 0xCC) radio_a
           {| tx_buf := Some [0xAA; 0xBB; 0x22]; rx_buf := None; len := 3 |}
           init_state).
Proof.
  exact (proj2 (proj2 (sx1301_radio_spi_transfer_one_sends_two_bytes
                         (const_device 0xCC) radio_a
                         [0xAA; 0xBB; 0x11] [0xAA; 0xBB; 0x22] None 3
                         init_state eq_refl (fun _ => eq_refl)))).
Defined.
